(** * MR Bot: the classification-and-chunking engine

    A shallow embedding of [config.py], [file_filter.py] and
    [diff_processor.py], and the properties of the engine proved on it.

    Modelling conventions.
    - A Python [str] is a [string]: a sequence of 8-bit characters, so a
      text is represented by its UTF-8 encoding and
      [len(s.encode("utf-8"))] is the length of the string.  The newline
      character is a single byte that occurs in no multi-byte sequence, so
      [split], [count] and [join] on a newline agree with Python's.  Case
      mapping, the case folding of [re.IGNORECASE] and whitespace are
      those of the ASCII range.  Python's go beyond it: [re.IGNORECASE]
      also takes the dotless i for an [i] and the long s for an [s], and
      [str.strip] also removes the no-break space and the other Unicode
      spaces.  On ASCII text ([isascii]) the two agree.
    - A Python [int] is a [Z].
    - [size_kb], a float obtained by dividing a length by [1024.0], is the
      exact rational [len / 1024]: a division by a power of two is exact
      in binary floating point.
    - The thresholds that [Config] reads from the environment are the
      fields of a record; [default_config] holds the documented defaults.
    - [FileFilter.skipped_files] is instance state: [filter_files] takes
      the instance and returns it updated.
    - The [while] loop of [_chunk_diff] takes fuel, since for some
      thresholds it does not terminate. *)

From Stdlib Require Import ZArith List Bool Ascii String QArith Lia.
From Stdlib Require Import DecimalString DecimalZ.
Import ListNotations.

Local Open Scope string_scope.
Local Open Scope list_scope.
Local Open Scope Z_scope.

(** ** Python string primitives *)

Module Py.

Definition nl : ascii := "010"%char.

Definition len (s : string) : Z := Z.of_nat (String.length s).

Definition truthy (s : string) : bool :=
  match s with EmptyString => false | String _ _ => true end.

(** [a or b] on strings. *)
Definition or_ (a b : string) : string := if truthy a then a else b.

Definition is_upper (c : ascii) : bool :=
  ((65 <=? nat_of_ascii c) && (nat_of_ascii c <=? 90))%nat.

Definition lower_char (c : ascii) : ascii :=
  if is_upper c then ascii_of_nat (nat_of_ascii c + 32) else c.

(** [s.lower()] *)
Fixpoint lower (s : string) : string :=
  match s with
  | EmptyString => EmptyString
  | String c t => String (lower_char c) (lower t)
  end.

(** [s.startswith(p)] *)
Fixpoint startswith (s p : string) : bool :=
  match p, s with
  | EmptyString, _ => true
  | String _ _, EmptyString => false
  | String a p', String b s' => Ascii.eqb a b && startswith s' p'
  end.

(** [p in s] *)
Fixpoint contains (p s : string) : bool :=
  startswith s p ||
  match s with
  | EmptyString => false
  | String _ t => contains p t
  end.

Fixpoint rev_string (s : string) : string :=
  match s with
  | EmptyString => EmptyString
  | String c t => (rev_string t ++ String c EmptyString)%string
  end.

(** [s.endswith(p)] *)
Definition endswith (s p : string) : bool :=
  startswith (rev_string s) (rev_string p).

(** [s.endswith((p1, p2, ...))] and [s.startswith((p1, p2, ...))] *)
Definition endswith_any (s : string) (ps : list string) : bool :=
  existsb (endswith s) ps.

Definition startswith_any (s : string) (ps : list string) : bool :=
  existsb (startswith s) ps.

(** [s.count(c)] for a one-character [c]. *)
Fixpoint count (c : ascii) (s : string) : Z :=
  match s with
  | EmptyString => 0
  | String a t => (if Ascii.eqb a c then 1 else 0) + count c t
  end.

(** [s.split(c)] for a one-character separator: never empty. *)
Fixpoint split (c : ascii) (s : string) : list string :=
  match s with
  | EmptyString => [EmptyString]
  | String a t =>
      if Ascii.eqb a c then EmptyString :: split c t
      else match split c t with
           | [] => [String a EmptyString]
           | w :: ws => String a w :: ws
           end
  end.

(** [sep.join(l)] *)
Fixpoint join (sep : string) (l : list string) : string :=
  match l with
  | [] => EmptyString
  | [w] => w
  | w :: ws => (w ++ sep ++ join sep ws)%string
  end.

(** [c.isspace()] on the ASCII range: tab, line feed, vertical tab, form
    feed, carriage return, the four separators 28..31 and the space. *)
Definition isspace (c : ascii) : bool :=
  let n := nat_of_ascii c in
  (((9 <=? n) && (n <=? 13)) || ((28 <=? n) && (n <=? 32)))%nat.

Fixpoint lstrip (s : string) : string :=
  match s with
  | EmptyString => EmptyString
  | String c t => if isspace c then lstrip t else s
  end.

(** [s.strip()] *)
Definition strip (s : string) : string :=
  rev_string (lstrip (rev_string (lstrip s))).

(** [s in (a, b, ...)] on strings. *)
Definition in_tuple (s : string) (l : list string) : bool :=
  existsb (String.eqb s) l.

(** Index normalisation of a slice bound: a negative bound counts from
    the end, and every bound is clamped to [0, n]. *)
Definition clamp (n i : Z) : Z :=
  if i <? 0 then Z.max (i + n) 0 else Z.min i n.

(** [l[a:b]] *)
Definition slice {A : Type} (l : list A) (a b : Z) : list A :=
  let n := Z.of_nat (List.length l) in
  let a' := clamp n a in
  let b' := clamp n b in
  firstn (Z.to_nat (b' - a')) (skipn (Z.to_nat a') l).

(** [l[i]]: [None] stands for [IndexError]. *)
Definition index {A : Type} (l : list A) (i : Z) : option A :=
  let n := Z.of_nat (List.length l) in
  if i <? 0 then
    if i + n <? 0 then None else nth_error l (Z.to_nat (i + n))
  else nth_error l (Z.to_nat i).

End Py.

(** ** Regular expressions of [config.py]

    The patterns of [Config] are sequences of four kinds of items:
    literal characters, [.*], a group of literal alternatives and [$].
    [match_] is [Pattern.match]: the pattern has to match at the start
    of the text and may stop before its end. *)

Module Re.

Inductive item : Type :=
| Lit (s : string)          (* literal characters, [\.] being a literal dot *)
| DotStar                   (* [.*]: any characters but a newline *)
| Alt (alts : list string)  (* [(a|b|c)] *)
| Eol.                      (* [$] *)

Record Pattern : Type := compile { items : list item; IGNORECASE : bool }.

(** One character of a literal against one character of the text; with
    [re.IGNORECASE], up to the case of the ASCII letters. *)
Definition char_eq (ic : bool) (a b : ascii) : bool :=
  if ic then Ascii.eqb (Py.lower_char a) (Py.lower_char b) else Ascii.eqb a b.

(** Consume the literal [l] at the start of [s]. *)
Fixpoint eat (ic : bool) (l s : string) : option string :=
  match l, s with
  | EmptyString, _ => Some s
  | String _ _, EmptyString => None
  | String a l', String b s' => if char_eq ic a b then eat ic l' s' else None
  end.

(** [.*] followed by the continuation [k]: some number of characters
    other than a newline, then [k]. *)
Fixpoint dotstar (k : string -> bool) (s : string) : bool :=
  k s ||
  match s with
  | EmptyString => false
  | String c t => if Ascii.eqb c Py.nl then false else dotstar k t
  end.

(** [$] holds at the end of the text and before a final newline. *)
Definition at_eol (s : string) : bool :=
  match s with
  | EmptyString => true
  | String c EmptyString => Ascii.eqb c Py.nl
  | _ => false
  end.

Fixpoint match_items (ic : bool) (p : list item) (s : string) {struct p} : bool :=
  match p with
  | [] => true
  | Lit l :: p' =>
      match eat ic l s with
      | Some r => match_items ic p' r
      | None => false
      end
  | DotStar :: p' => dotstar (match_items ic p') s
  | Alt alts :: p' =>
      existsb (fun l => match eat ic l s with
                        | Some r => match_items ic p' r
                        | None => false
                        end) alts
  | Eol :: p' => at_eol s && match_items ic p' s
  end.

(** [pattern.match(s)], as a truth value. *)
Definition match_ (p : Pattern) (s : string) : bool :=
  match_items (IGNORECASE p) (items p) s.

End Re.

(** ** [config.py] *)

Record Config : Type := {
  MAX_FILE_SIZE_KB : Z;
  CHUNK_SIZE_LINES : Z;
  CONTEXT_LINES : Z
}.

(** The values used when the environment sets none. *)
Definition default_config : Config :=
  {| MAX_FILE_SIZE_KB := 500; CHUNK_SIZE_LINES := 300; CONTEXT_LINES := 5 |}.

Import Re.

Definition SKIP_PATTERNS : list Pattern := [
  (* lock files *)
  compile [DotStar; Lit ".lock"; Eol] false;
  compile [Lit "package-lock.json"; Eol] false;
  compile [Lit "yarn.lock"; Eol] false;
  compile [Lit "poetry.lock"; Eol] false;
  compile [Lit "Pipfile.lock"; Eol] false;
  compile [Lit "composer.lock"; Eol] false;
  compile [Lit "Gemfile.lock"; Eol] false;
  compile [Lit "Cargo.lock"; Eol] false;
  (* build artifacts *)
  compile [DotStar; Lit ".min."; Alt ["js"; "css"]; Eol] false;
  compile [DotStar; Lit "dist/"; DotStar] false;
  compile [DotStar; Lit "build/"; DotStar] false;
  compile [DotStar; Lit "target/"; DotStar] false;
  compile [DotStar; Lit ".egg-info/"; DotStar] false;
  compile [DotStar; Lit "__pycache__/"; DotStar] false;
  compile [DotStar; Lit ".pyc"; Eol] false;
  compile [DotStar; Lit ".pyo"; Eol] false;
  (* generated code *)
  compile [DotStar; Lit "_pb2.py"; Eol] false;
  compile [DotStar; Lit ".generated."; DotStar] false;
  compile [DotStar; Lit ".pb.go"; Eol] false;
  compile [DotStar; Lit ".pb.js"; Eol] false;
  (* binaries and media *)
  compile [DotStar; Lit ".";
           Alt ["png"; "jpg"; "jpeg"; "gif"; "svg"; "ico"; "webp"; "bmp"]; Eol] false;
  compile [DotStar; Lit "."; Alt ["pdf"; "zip"; "tar"; "gz"; "bz2"; "xz"]; Eol] false;
  compile [DotStar; Lit "."; Alt ["mp3"; "mp4"; "avi"; "mov"; "wmv"]; Eol] false;
  compile [DotStar; Lit "."; Alt ["woff"; "woff2"; "ttf"; "eot"; "otf"]; Eol] false
].

Definition NOTE_ONLY_PATTERNS : list Pattern := [
  compile [DotStar; Lit ".csv"; Eol] false;
  compile [DotStar; Lit ".tsv"; Eol] false;
  compile [DotStar; Lit ".json.gz"; Eol] false;
  compile [DotStar; Lit ".parquet"; Eol] false
].

(** The keywords of the critical paths; pattern [k] is [.*k.*] with
    [re.IGNORECASE]. *)
Definition CRITICAL_KEYWORDS : list string :=
  ["auth"; "security"; "api"; "middleware"; "config"; "settings";
   "database"; "db"]%string.

Definition CRITICAL_PATTERNS : list Pattern :=
  map (fun k => compile [DotStar; Lit k; DotStar] true) CRITICAL_KEYWORDS.

Definition should_skip_file (filepath : string) : bool :=
  existsb (fun pattern => match_ pattern filepath) SKIP_PATTERNS.

Definition should_note_only (filepath : string) : bool :=
  existsb (fun pattern => match_ pattern filepath) NOTE_ONLY_PATTERNS.

Definition is_critical_path (filepath : string) : bool :=
  existsb (fun pattern => match_ pattern filepath) CRITICAL_PATTERNS.

Definition get_file_priority (filepath : string) : string :=
  if is_critical_path filepath then "critical"
  else if Py.contains "test" (Py.lower filepath)
          || Py.contains "spec" (Py.lower filepath) then "low"
  else "normal".

(** ** [gitlab_fetcher.py]: the record of one changed file *)

Record FileChange : Type := {
  old_path : string;
  new_path : string;
  diff : string;
  status : string;     (* 'added', 'modified', 'deleted', 'renamed' *)
  additions : Z;
  deletions : Z
}.

(** ** [file_filter.py] *)

Record FilteredFile : Type := {
  file_change : FileChange;
  should_review : bool;
  should_chunk : bool;
  priority : string;   (* 'critical', 'normal', 'low' *)
  skip_reason : option string;
  note_only : bool;
  size_kb : Q;
  line_count : Z
}.

Record FileFilter : Type := { skipped_files : list (string * string) }.

(** [FileFilter()] *)
Definition FileFilter_init : FileFilter := {| skipped_files := [] |}.

Definition _get_skip_reason (filepath : string) : string :=
  if Py.endswith filepath ".lock" || Py.contains "lock" (Py.lower filepath)
  then "lock file"
  else if Py.contains ".min." (Py.lower filepath) then "minified file"
  else if existsb (fun pattern => Py.contains pattern (Py.lower filepath))
            ["dist/"; "build/"; "target/"]%string
  then "build artifact"
  else if Py.contains "__pycache__" filepath
          || Py.endswith_any filepath [".pyc"; ".pyo"]%string
  then "Python cache file"
  else if Py.contains "_pb2.py" filepath || Py.contains ".generated." filepath
  then "generated code"
  else if Py.endswith_any filepath
            [".png"; ".jpg"; ".jpeg"; ".gif"; ".svg"; ".ico"]%string
  then "image file"
  else if Py.endswith_any filepath [".pdf"; ".zip"; ".tar"; ".gz"]%string
  then "binary/archive file"
  else "matches skip pattern".

Definition NOTE_ONLY_REASON : string :=
  "large data file (noted but not reviewed)".

(** [a > b] on the rationals. *)
Definition Qgtb (a b : Q) : bool := negb (Qle_bool a b).

(** The logical path of a change: [new_path or old_path]. *)
Definition path_of (fc : FileChange) : string :=
  Py.or_ (new_path fc) (old_path fc).

(** The record that the body of the loop of [filter_files] builds for a
    file that is not skipped. *)
Definition analyse (cfg : Config) (file_change : FileChange) : FilteredFile :=
  let filepath := path_of file_change in
  let note_only := should_note_only filepath in
  let size_kb := Qmake (Py.len (diff file_change)) 1024 in
  let line_count := Py.count Py.nl (diff file_change) in
  let should_chunk :=
    (line_count >? CHUNK_SIZE_LINES cfg)
    || Qgtb size_kb (inject_Z (MAX_FILE_SIZE_KB cfg)) in
  let priority := get_file_priority filepath in
  let should_review :=
    negb note_only && negb (String.eqb (status file_change) "deleted") in
  {| file_change := file_change;
     should_review := should_review;
     should_chunk := should_chunk;
     priority := priority;
     skip_reason := None;
     note_only := note_only;
     size_kb := size_kb;
     line_count := line_count |}.

(** The [for] loop of [filter_files], on the list [filtered] under
    construction and the instance's [skipped_files]. *)
Fixpoint filter_loop (cfg : Config) (file_changes : list FileChange)
    (filtered : list FilteredFile) (skipped : list (string * string))
    : list FilteredFile * list (string * string) :=
  match file_changes with
  | [] => (filtered, skipped)
  | file_change :: rest =>
      let filepath := path_of file_change in
      if should_skip_file filepath then
        let reason := _get_skip_reason filepath in
        filter_loop cfg rest filtered (skipped ++ [(filepath, reason)])
      else
        let filtered_file := analyse cfg file_change in
        filter_loop cfg rest (filtered ++ [filtered_file])
          (if note_only filtered_file
           then skipped ++ [(filepath, NOTE_ONLY_REASON)]
           else skipped)
  end.

(** [self.filter_files(file_changes)]: the returned list and the
    instance afterwards. *)
Definition filter_files (cfg : Config) (self : FileFilter)
    (file_changes : list FileChange) : list FilteredFile * FileFilter :=
  let '(filtered, skipped) :=
    filter_loop cfg file_changes [] (skipped_files self) in
  (filtered, {| skipped_files := skipped |}).

Definition get_skipped_files (self : FileFilter) : list (string * string) :=
  skipped_files self.

(** ** [diff_processor.py] *)

Definition NL : string := String Py.nl EmptyString.

Record DiffChunk : Type := {
  filepath : string;
  chunk_number : Z;
  content : string;
  start_line : Z;
  end_line : Z;
  total_chunks : Z
}.

(** What running a piece of code leads to: a value, an [IndexError], or
    a loop still running when the fuel is spent. *)
Inductive outcome (A : Type) : Type :=
| Returns (a : A)
| Raises
| Runs.

Arguments Returns {A} a.
Arguments Raises {A}.
Arguments Runs {A}.

(** The three tests of the body of the loop of [_find_breakpoint], in
    the order of the source. *)
Definition good_breakpoint (line : string) : bool :=
  let stripped := Py.strip line in
  if negb (Py.truthy stripped) then true
  else if Py.startswith_any stripped ["def "; "class "; "function "; "@"]
  then true
  else if Py.in_tuple stripped ["}"; "]"; ")"] then true
  else false.

(** [for i in range(i0, i0 - n, -1)]: the index goes down from [i0] for
    [n] iterations. *)
Fixpoint find_breakpoint_loop (lines : list string) (i0 : Z) (n : nat)
    (end_ : Z) : option Z :=
  match n with
  | O => Some end_
  | S n' =>
      match Py.index lines i0 with
      | None => None
      | Some line =>
          if good_breakpoint line then Some (i0 + 1)
          else find_breakpoint_loop lines (i0 - 1) n' end_
      end
  end.

(** [range(end - 1, start - 1, -1)] has [end - start] elements, none
    when that is negative. *)
Definition _find_breakpoint (lines : list string) (start end_ : Z) : option Z :=
  find_breakpoint_loop lines (end_ - 1) (Z.to_nat (end_ - start)) end_.

Definition nonempty {A : Type} (l : list A) : bool :=
  match l with [] => false | _ :: _ => true end.

Definition llen {A : Type} (l : list A) : Z := Z.of_nat (List.length l).

(** The end of the chunk that starts at [current_pos]. *)
Definition chunk_end_at (cfg : Config) (lines : list string)
    (current_pos : Z) : option Z :=
  let total_lines := llen lines in
  let chunk_end := Z.min (current_pos + CHUNK_SIZE_LINES cfg) total_lines in
  if chunk_end <? total_lines then
    let search_start := Z.max (chunk_end - 50) current_pos in
    match _find_breakpoint lines search_start chunk_end with
    | None => None
    | Some breakpoint_pos =>
        Some (if breakpoint_pos >? current_pos then breakpoint_pos
              else chunk_end)
    end
  else Some chunk_end.

(** The text of the chunk [current_pos, chunk_end), with the context
    that follows it. *)
Definition chunk_content_at (cfg : Config) (lines : list string)
    (current_pos chunk_end : Z) : string :=
  let total_lines := llen lines in
  let chunk_lines := Py.slice lines current_pos chunk_end in
  let chunk_content := Py.join NL chunk_lines in
  if (chunk_end <? total_lines) && (CONTEXT_LINES cfg >? 0) then
    let next_context :=
      Py.slice lines chunk_end
        (Z.min (chunk_end + CONTEXT_LINES cfg) total_lines) in
    if nonempty next_context
    then (chunk_content ++ NL ++ Py.join NL next_context)%string
    else chunk_content
  else chunk_content.

(** The [while] loop of [_chunk_diff]. *)
Fixpoint chunk_loop (fuel : nat) (cfg : Config) (path : string)
    (lines : list string) (current_pos chunk_num : Z)
    (chunks : list DiffChunk) : outcome (list DiffChunk) :=
  if current_pos <? llen lines then
    match fuel with
    | O => Runs
    | S fuel' =>
        match chunk_end_at cfg lines current_pos with
        | None => Raises
        | Some chunk_end =>
            let chunk :=
              {| filepath := path;
                 chunk_number := chunk_num;
                 content := chunk_content_at cfg lines current_pos chunk_end;
                 start_line := current_pos + 1;
                 end_line := chunk_end;
                 total_chunks := 0 |} in
            chunk_loop fuel' cfg path lines chunk_end (chunk_num + 1)
              (chunks ++ [chunk])
        end
    end
  else Returns chunks.

Definition set_total_chunks (n : Z) (chunk : DiffChunk) : DiffChunk :=
  {| filepath := filepath chunk;
     chunk_number := chunk_number chunk;
     content := content chunk;
     start_line := start_line chunk;
     end_line := end_line chunk;
     total_chunks := n |}.

Definition _chunk_diff (fuel : nat) (cfg : Config) (path : string)
    (diff_content : string) : outcome (list DiffChunk) :=
  let lines := Py.split Py.nl diff_content in
  match chunk_loop fuel cfg path lines 0 1 [] with
  | Returns chunks => Returns (map (set_total_chunks (llen chunks)) chunks)
  | Raises => Raises
  | Runs => Runs
  end.

Definition process_file (fuel : nat) (cfg : Config)
    (filtered_file : FilteredFile) : outcome (list DiffChunk) :=
  let path := path_of (file_change filtered_file) in
  let diff_content := diff (file_change filtered_file) in
  if negb (should_chunk filtered_file) then
    Returns [ {| filepath := path;
                 chunk_number := 1;
                 content := diff_content;
                 start_line := 1;
                 end_line := line_count filtered_file;
                 total_chunks := 1 |} ]
  else _chunk_diff fuel cfg path diff_content.

(** ** The classifier as a function of its input

    [filter_files] appends to two lists.  What it appends depends on the
    input alone: the records of the files that are not skipped, and one
    log entry per skipped or note-only file. *)

Definition classifications (cfg : Config) (file_changes : list FileChange)
    : list FilteredFile :=
  map (analyse cfg)
    (filter (fun fc => negb (should_skip_file (path_of fc))) file_changes).

Definition log_entry (fc : FileChange) : list (string * string) :=
  if should_skip_file (path_of fc)
  then [(path_of fc, _get_skip_reason (path_of fc))]
  else if should_note_only (path_of fc)
  then [(path_of fc, NOTE_ONLY_REASON)]
  else [].

Definition log_entries (file_changes : list FileChange)
    : list (string * string) :=
  flat_map log_entry file_changes.

(** [n] calls of [filter_files] on one instance, with the same input. *)
Fixpoint filter_files_times (n : nat) (cfg : Config) (self : FileFilter)
    (file_changes : list FileChange) : FileFilter :=
  match n with
  | O => self
  | S k =>
      snd (filter_files cfg (filter_files_times k cfg self file_changes)
             file_changes)
  end.

(** The entries of a log that are about the path [p]. *)
Definition entries_for (p : string) (log : list (string * string))
    : list (string * string) :=
  filter (fun e => String.eqb (fst e) p) log.

(** ** Sample inputs *)

Definition change (path diff_text status_ : string) : FileChange :=
  {| old_path := path; new_path := path; diff := diff_text;
     status := status_; additions := 0; deletions := 0 |}.

Definition nested_package_lock : FileChange :=
  change "vendor/package-lock.json" "" "modified".

Definition parquet_export : FileChange :=
  change "data/export.parquet" "" "modified".

Definition sample_changes : list FileChange :=
  [ change "src/app.py" "" "modified";
    change "yarn.lock" "" "modified";
    change "src/old.py" "" "deleted";
    parquet_export;
    change "logo.png" "" "added" ].

(** ** Matching a critical keyword *)

(** The pattern of [CRITICAL_PATTERNS] built from the keyword [k]. *)
Definition critical_pattern (k : string) : Pattern :=
  compile [DotStar; Lit k; DotStar] true.

(** [P] matches one of the critical patterns. *)
Definition matches_critical (P : string) : Prop :=
  exists k, In k CRITICAL_KEYWORDS /\ match_ (critical_pattern k) P = true.

(** ** The shape of a chunk list *)

(** Number, first line, last line and [total_chunks] of a chunk. *)
Definition summary (chunk : DiffChunk) : Z * Z * Z * Z :=
  (chunk_number chunk, start_line chunk, end_line chunk, total_chunks chunk).

(** The chunks [chunks] are numbered from [num] and cover the lines from
    [first] to [last], one after the other, none empty. *)
Fixpoint chained (first num last : Z) (chunks : list DiffChunk) : Prop :=
  match chunks with
  | [] => first = last + 1
  | chunk :: rest =>
      start_line chunk = first
      /\ chunk_number chunk = num
      /\ start_line chunk <= end_line chunk <= last
      /\ chained (end_line chunk + 1) (num + 1) last rest
  end.

(** A diff of 301 lines joined by newlines: 249 lines [x], an empty
    line (line 250) and 51 lines [x]. *)
Definition diff_301 : string :=
  Py.join NL (repeat "x" 249 ++ [""] ++ repeat "x" 51).

(** The same lines, each of the 301 ended by a newline. *)
Definition diff_301_terminated : string := (diff_301 ++ NL)%string.

Definition big_file : FilteredFile :=
  analyse default_config (change "src/big.py" diff_301_terminated "modified").

(** The summaries of the chunks that a run returns. *)
Definition summaries (o : outcome (list DiffChunk))
    : option (list (Z * Z * Z * Z)) :=
  match o with
  | Returns chunks => Some (map summary chunks)
  | Raises => None
  | Runs => None
  end.

(** 301 lines joined by newlines, the empty one being line 251. *)
Definition diff_301_blank_251 : string :=
  Py.join NL (repeat "x" 250 ++ [""] ++ repeat "x" 50).

(** Chunks of 300 lines, and a size threshold that every non-empty diff
    exceeds. *)
Definition chunk_at_300 : Config :=
  {| MAX_FILE_SIZE_KB := 0; CHUNK_SIZE_LINES := 300; CONTEXT_LINES := 5 |}.

(** Five lines, the fourth one empty, and two configurations with
    chunks of two lines: one line of context, and none. *)
Definition five_lines : string := Py.join NL ["a"; "b"; "c"; ""; "e"].

Definition chunks_of_two : Config :=
  {| MAX_FILE_SIZE_KB := 0; CHUNK_SIZE_LINES := 2; CONTEXT_LINES := 1 |}.

Definition chunks_of_two_no_context : Config :=
  {| MAX_FILE_SIZE_KB := 0; CHUNK_SIZE_LINES := 2; CONTEXT_LINES := 0 |}.

(** ** The skip and note-only patterns in plain terms *)

(** The endings, the one whole path and the fragments that the patterns
    of [SKIP_PATTERNS] look for. *)
Definition SKIP_SUFFIXES : list string :=
  [".lock"; ".min.js"; ".min.css"; ".pyc"; ".pyo"; "_pb2.py"; ".pb.go";
   ".pb.js";
   ".png"; ".jpg"; ".jpeg"; ".gif"; ".svg"; ".ico"; ".webp"; ".bmp";
   ".pdf"; ".zip"; ".tar"; ".gz"; ".bz2"; ".xz";
   ".mp3"; ".mp4"; ".avi"; ".mov"; ".wmv";
   ".woff"; ".woff2"; ".ttf"; ".eot"; ".otf"].

Definition SKIP_FRAGMENTS : list string :=
  ["dist/"; "build/"; "target/"; ".egg-info/"; "__pycache__/"; ".generated."].

Definition skip_plain (P : string) : bool :=
  Py.endswith_any P SKIP_SUFFIXES
  || String.eqb P "package-lock.json"
  || existsb (fun fragment => Py.contains fragment P) SKIP_FRAGMENTS.

Definition NOTE_ONLY_SUFFIXES : list string :=
  [".csv"; ".tsv"; ".json.gz"; ".parquet"].

(** A critical keyword occurs in the lower-case form of the path. *)
Definition critical_plain (P : string) : bool :=
  existsb (fun k => Py.contains k (Py.lower P)) CRITICAL_KEYWORDS.

(** ** [main.py]: from the changed files to the chunks *)

(** [[f for f in filtered_files if f.should_review]] *)
Definition review_files (filtered_files : list FilteredFile)
    : list FilteredFile :=
  filter should_review filtered_files.

(** [len(filter_obj.get_skipped_files())] *)
Definition skipped_count (filter_obj : FileFilter) : Z :=
  llen (get_skipped_files filter_obj).

(** The loop of [main] over the filtered files, on [all_chunks] and
    [chunk_count]; each call of [process_file] has its own fuel. *)
Fixpoint process_loop (fuel : nat) (cfg : Config)
    (filtered_files : list FilteredFile) (all_chunks : list DiffChunk)
    (chunk_count : Z) : outcome (list DiffChunk * Z) :=
  match filtered_files with
  | [] => Returns (all_chunks, chunk_count)
  | filtered_file :: rest =>
      if should_review filtered_file then
        match process_file fuel cfg filtered_file with
        | Returns chunks =>
            process_loop fuel cfg rest (all_chunks ++ chunks)
              (if llen chunks >? 1 then chunk_count + llen chunks
               else chunk_count)
        | Raises => Raises
        | Runs => Runs
        end
      else process_loop fuel cfg rest all_chunks chunk_count
  end.

(** The input files that no skip or note-only pattern matches and whose
    status is ["deleted"]. *)
Definition plain_deleted (file_changes : list FileChange) : list FileChange :=
  filter (fun fc => negb (should_skip_file (path_of fc))
                    && negb (should_note_only (path_of fc))
                    && String.eqb (status fc) "deleted") file_changes.

(** Every file of the list has at most [fuel] line elements. *)
Definition fuel_for (fuel : nat) (filtered_files : list FilteredFile) : Prop :=
  Forall (fun ff =>
    llen (Py.split Py.nl (diff (file_change ff))) <= Z.of_nat fuel)
    filtered_files.

(** ** [output_generator.py] *)

(** [s.replace(old, new)] for a one-character [old]. *)
Fixpoint str_replace (old : ascii) (new s : string) : string :=
  match s with
  | EmptyString => EmptyString
  | String c t =>
      if Ascii.eqb c old then (new ++ str_replace old new t)%string
      else String c (str_replace old new t)
  end.

(** [str(n)], as an f-string formats an [int]. *)
Definition str_of_int (n : Z) : string := NilEmpty.string_of_int (Z.to_int n).

Definition slash : ascii := "/"%char.
Definition backslash : ascii := "\"%char.

(** The rows of [skipped_files.md], as [_generate_skipped_files]
    collects them. *)
Definition skipped_rows (filtered_files : list FilteredFile)
    : list (string * string) :=
  flat_map (fun f =>
    if negb (should_review f) || note_only f then
      let filepath := path_of (file_change f) in
      let fallback :=
        if note_only f then "noted but not reviewed" else "skipped" in
      let reason :=
        match skip_reason f with
        | Some r => if Py.truthy r then r else fallback
        | None => fallback
        end in
      [(filepath, reason)]
    else []) filtered_files.

(** The text that [_generate_skipped_files] writes. *)
Definition skipped_files_md (filtered_files : list FilteredFile) : string :=
  let skipped := skipped_rows filtered_files in
  let content :=
    ("# Skipped Files" ++ NL ++ NL
     ++ "The following files were excluded from AI review:" ++ NL ++ NL)%string in
  if negb (nonempty skipped) then
    (content ++ "No files were skipped." ++ NL)%string
  else
    fold_left
      (fun content row =>
         let '(filepath, reason) := row in
         (content ++ "| `" ++ filepath ++ "` | " ++ reason ++ " |" ++ NL)%string)
      skipped
      (content ++ "| File Path | Reason |" ++ NL
       ++ "|-----------|--------|" ++ NL)%string.

(** The name of the file that [_generate_diff_files] writes for a chunk,
    within the directory [diffs]. *)
Definition diff_filename (chunk : DiffChunk) : string :=
  let path :=
    str_replace backslash "__" (str_replace slash "__" (filepath chunk)) in
  if total_chunks chunk >? 1
  then (path ++ "_chunk_" ++ str_of_int (chunk_number chunk) ++ ".diff")%string
  else (path ++ ".diff")%string.

(** The entry of [chunk_files] that [_generate_review_prompt] lists for
    a chunk. *)
Definition prompt_chunk_file (chunk : DiffChunk) : string :=
  let path := str_replace slash "__" (filepath chunk) in
  let filename :=
    if total_chunks chunk >? 1
    then (path ++ "_chunk_" ++ str_of_int (chunk_number chunk) ++ ".diff")%string
    else (path ++ ".diff")%string in
  ("diffs/" ++ filename)%string.

(** The header and the text that [_generate_diff_files] writes for a
    chunk. *)
Definition diff_file_text (chunk : DiffChunk) : string :=
  let header := ("# Diff: " ++ filepath chunk)%string in
  let header :=
    if total_chunks chunk >? 1
    then (header ++ " (Chunk " ++ str_of_int (chunk_number chunk)
          ++ " of " ++ str_of_int (total_chunks chunk) ++ ")")%string
    else header in
  let header :=
    (header ++ NL ++ "# Lines " ++ str_of_int (start_line chunk) ++ "-"
     ++ str_of_int (end_line chunk) ++ NL ++ NL)%string in
  (header ++ content chunk)%string.

(** The three lists of [_generate_review_prompt]. *)
Definition critical_files (filtered_files : list FilteredFile) :=
  filter (fun f => String.eqb (priority f) "critical")
    (review_files filtered_files).

Definition normal_files (filtered_files : list FilteredFile) :=
  filter (fun f => String.eqb (priority f) "normal")
    (review_files filtered_files).

Definition low_files (filtered_files : list FilteredFile) :=
  filter (fun f => String.eqb (priority f) "low")
    (review_files filtered_files).

(** Input files that reach the report of skipped files: not skipped by
    a pattern, and note-only or deleted. *)
Definition reported (fc : FileChange) : bool :=
  negb (should_skip_file (path_of fc))
  && (should_note_only (path_of fc) || String.eqb (status fc) "deleted").

(** ** [run_pipeline.py] *)

Fixpoint str_drop (k : nat) (s : string) : string :=
  match k, s with
  | O, _ => s
  | S _, EmptyString => EmptyString
  | S k', String _ t => str_drop k' t
  end.

(** [s[i:]] *)
Definition str_from (s : string) (i : Z) : string :=
  str_drop (Z.to_nat (Py.clamp (Py.len s) i)) s.

Definition _format_path (path : string) (max_len : Z) : string :=
  if Py.len path <=? max_len then path
  else ("..." ++ str_from path (- (max_len - 3)))%string.

(** [s.rstrip(c)] for a one-character [c]. *)
Fixpoint lstrip_char (c : ascii) (s : string) : string :=
  match s with
  | EmptyString => EmptyString
  | String a t => if Ascii.eqb a c then lstrip_char c t else s
  end.

Definition rstrip_char (c : ascii) (s : string) : string :=
  Py.rev_string (lstrip_char c (Py.rev_string s)).

(** [project_id.strip().rstrip("/").split("/")[-1]]; [None] stands for
    [IndexError]. *)
Definition get_repo_name_from_project_id (project_id : string)
    : option string :=
  Py.index (Py.split slash (rstrip_char slash (Py.strip project_id))) (-1).

(** ** [gitlab_fetcher.py]: counting additions and deletions *)

(** [s.count(sub)] for a non-empty [sub]: the occurrences found from
    left to right, the search going on after the end of each one;
    [skip] characters are still to be passed over. *)
Fixpoint count_sub_from (sub : string) (skip : nat) (s : string) : Z :=
  match s with
  | EmptyString => 0
  | String _ t =>
      match skip with
      | S k => count_sub_from sub k t
      | O =>
          if Py.startswith s sub
          then 1 + count_sub_from sub (String.length sub - 1) t
          else count_sub_from sub 0 t
      end
  end.

(** [s.count(sub)]; an empty [sub] is found between all characters. *)
Definition count_sub (sub s : string) : Z :=
  if Py.truthy sub then count_sub_from sub 0 s else Py.len s + 1.

(** [diff.count("\n+") - diff.count("\n+++")] and the like for [-]. *)
Definition additions_of (diff_text : string) : Z :=
  count_sub (NL ++ "+") diff_text - count_sub (NL ++ "+++") diff_text.

Definition deletions_of (diff_text : string) : Z :=
  count_sub (NL ++ "-") diff_text - count_sub (NL ++ "---") diff_text.

(** The number of lines after the first one that satisfy [test]. *)
Definition later_lines (test : string -> bool) (diff_text : string) : Z :=
  llen (filter test (tl (Py.split Py.nl diff_text))).

(** The number of positions at which [sub] starts in [s]. *)
Fixpoint starts_of (sub s : string) : Z :=
  match s with
  | EmptyString => 0
  | String _ t => (if Py.startswith s sub then 1 else 0) + starts_of sub t
  end.

(** Every character of the text is whitespace. *)
Definition blank (s : string) : Prop := Py.lstrip s = "".

(** ** The source branch, written and read back

    [_generate_mr_info] of [output_generator.py] writes the branch in
    the file of information on the merge request, and
    [get_branch_from_mr_info] of [run_pipeline.py] reads it there. *)

Record MRData : Type := {
  iid : string;
  title : string;
  author : string;
  source_branch : string;
  target_branch : string;
  description : string;
  web_url : string;
  file_changes : list FileChange
}.

(** The text that [_generate_mr_info] writes. *)
Definition mr_info_text (mr_data : MRData) : string :=
  let content :=
    ("# Merge Request Information" ++ NL
     ++ NL
     ++ "## Basic Info" ++ NL
     ++ "- **IID**: " ++ iid mr_data ++ NL
     ++ "- **Title**: " ++ title mr_data ++ NL
     ++ "- **Author**: " ++ author mr_data ++ NL
     ++ "- **Source Branch**: `" ++ source_branch mr_data ++ "`" ++ NL
     ++ "- **Target Branch**: `" ++ target_branch mr_data ++ "`" ++ NL)%string in
  let content :=
    if Py.truthy (web_url mr_data)
    then (content ++ "- **URL**: " ++ web_url mr_data ++ NL)%string
    else content in
  if Py.truthy (description mr_data)
  then (content ++ NL ++ "## Description" ++ NL ++ NL
        ++ description mr_data ++ NL)%string
  else content.

(** The text before the first [c] and the text after it. *)
Fixpoint take_until (c : ascii) (s : string) : option (string * string) :=
  match s with
  | EmptyString => None
  | String a t =>
      if Ascii.eqb a c then Some (EmptyString, t)
      else match take_until c t with
           | Some (g, r) => Some (String a g, r)
           | None => None
           end
  end.

Definition backtick : ascii := "`"%char.

(** The pattern of [get_branch_from_mr_info], matched at the start of
    [s]: the literal [**Source Branch**:], whitespace, a backtick, one
    or more characters other than a backtick (the group) and a
    backtick.  The whitespace is followed by a backtick, which is no
    whitespace, and the group by a backtick, which is not in the group,
    so both repetitions take all that they can. *)
Definition match_branch_here (s : string) : option string :=
  match eat false "**Source Branch**:" s with
  | None => None
  | Some r =>
      match Py.lstrip r with
      | String c t =>
          if Ascii.eqb c backtick then
            match take_until backtick t with
            | Some (g, _) => if Py.truthy g then Some g else None
            | None => None
            end
          else None
      | EmptyString => None
      end
  end.

(** [re.search]: the first position at which the pattern matches. *)
Fixpoint search_branch (s : string) : option string :=
  match match_branch_here s with
  | Some g => Some g
  | None =>
      match s with
      | EmptyString => None
      | String _ t => search_branch t
      end
  end.

(** What [get_branch_from_mr_info] makes of the text of the file:
    [match.group(1).strip() if match else None]. *)
Definition branch_of_mr_info (text : string) : option string :=
  match search_branch text with
  | Some g => Some (Py.strip g)
  | None => None
  end.

Definition star : ascii := "*"%char.

(** ** Configurations that the environment can give *)

(** [CHUNK_SIZE_LINES=0]: the chunk size is read with [int], whatever
    its value. *)
Definition zero_chunk_size : Config :=
  {| MAX_FILE_SIZE_KB := 500; CHUNK_SIZE_LINES := 0; CONTEXT_LINES := 5 |}.

(** A diff of two lines, classified under that configuration. *)
Definition two_line_file : FilteredFile :=
  analyse zero_chunk_size
    (change "src/a.py" ("a" ++ NL ++ "b")%string "modified").

(** [MAX_FILE_SIZE_KB=-1]: the size threshold is read the same way. *)
Definition negative_max_size : Config :=
  {| MAX_FILE_SIZE_KB := -1; CHUNK_SIZE_LINES := 300; CONTEXT_LINES := 5 |}.

(** An empty diff, classified under that configuration. *)
Definition empty_file : FilteredFile :=
  analyse negative_max_size (change "src/empty.py" "" "modified").

(** [str.isascii]: every character is below 128. *)
Fixpoint isascii (s : string) : bool :=
  match s with
  | EmptyString => true
  | String c t => (Z.of_nat (nat_of_ascii c) <? 128) && isascii t
  end.

(** * Properties *)

(** ** The classifier as a function of its input *)

Lemma filter_loop_spec cfg fcs : forall filtered skipped,
  filter_loop cfg fcs filtered skipped
  = (filtered ++ classifications cfg fcs, skipped ++ log_entries fcs).
Proof.
  induction fcs as [|fc rest IH]; intros filtered skipped.
  - cbn. now rewrite !app_nil_r.
  - cbn [filter_loop]. unfold classifications, log_entries in *.
    cbn [filter flat_map map]. unfold log_entry at 1.
    destruct (should_skip_file (path_of fc)) eqn:Hskip; cbn [negb].
    + rewrite IH. now rewrite <- app_assoc.
    + rewrite IH. cbn [note_only analyse map].
      destruct (should_note_only (path_of fc)); cbn [app];
        now rewrite <- ?app_assoc.
Qed.

Lemma filter_files_spec cfg self fcs :
  filter_files cfg self fcs
  = (classifications cfg fcs,
     {| skipped_files := skipped_files self ++ log_entries fcs |}).
Proof.
  unfold filter_files. now rewrite filter_loop_spec.
Qed.

Lemma log_entries_app a b :
  log_entries (a ++ b) = log_entries a ++ log_entries b.
Proof. unfold log_entries. apply flat_map_app. Qed.

Lemma classifications_app cfg a b :
  classifications cfg (a ++ b) = classifications cfg a ++ classifications cfg b.
Proof. unfold classifications. now rewrite filter_app, map_app. Qed.

Lemma log_entry_path fc e : In e (log_entry fc) -> fst e = path_of fc.
Proof.
  unfold log_entry.
  destruct (should_skip_file (path_of fc)); [|destruct (should_note_only (path_of fc))];
    cbn; intros H; try contradiction; destruct H as [<-|[]]; reflexivity.
Qed.

Lemma entries_for_app p a b :
  entries_for p (a ++ b) = entries_for p a ++ entries_for p b.
Proof. apply filter_app. Qed.

Lemma entries_for_other p fcs :
  (forall fc, In fc fcs -> path_of fc <> p) ->
  entries_for p (log_entries fcs) = [].
Proof.
  intros H. unfold entries_for.
  induction fcs as [|fc rest IH]; [reflexivity|].
  unfold log_entries. cbn [flat_map]. rewrite filter_app.
  fold (log_entries rest). rewrite IH by (intros; apply H; now right).
  rewrite app_nil_r.
  assert (Hp : path_of fc <> p) by (apply H; now left).
  assert (Hall : forall e, In e (log_entry fc) -> String.eqb (fst e) p = false).
  { intros e He. apply String.eqb_neq. now rewrite (log_entry_path _ _ He). }
  induction (log_entry fc) as [|e l IHl]; [reflexivity|].
  cbn. rewrite Hall by now left. apply IHl. intros; apply Hall; now right.
Qed.

(** ** The classifier: examples and general properties *)

(** C2.  The path [vendor/package-lock.json] is not excluded: no pattern
    of [SKIP_PATTERNS] matches it, because [Pattern.match] anchors
    [package-lock\.json$] at the first character of the path.  The file
    gets a record (priority normal, to be reviewed) and nothing is
    logged, although [_get_skip_reason] would call it a lock file, and a
    [package-lock.json] at the root is excluded as one. *)
Theorem nested_package_lock_not_skipped :
  should_skip_file "vendor/package-lock.json" = false
  /\ filter_files default_config FileFilter_init [nested_package_lock]
     = ([analyse default_config nested_package_lock], FileFilter_init)
  /\ should_review (analyse default_config nested_package_lock) = true
  /\ priority (analyse default_config nested_package_lock) = "normal"
  /\ _get_skip_reason "vendor/package-lock.json" = "lock file"
  /\ filter_files default_config FileFilter_init
       [change "package-lock.json" "" "modified"]
     = ([], {| skipped_files := [("package-lock.json", "lock file")] |}).
Proof. repeat split; vm_compute; reflexivity. Qed.

(** C5.  The list that [filter_files] returns is the same on a second
    run over the same input, whatever the first run left in the
    instance. *)
Theorem filter_files_rerun_same_output cfg self file_changes :
  fst (filter_files cfg (snd (filter_files cfg self file_changes)) file_changes)
  = fst (filter_files cfg self file_changes).
Proof. now rewrite !filter_files_spec. Qed.

(** C7.  Every record that [filter_files] returns belongs to an input
    file that is not skipped, and has [should_review] true exactly when
    the file is not note-only and its status is not ["deleted"]; a
    deleted file is never to be reviewed.  Conversely every input file
    that is not skipped gets its record, and a skipped one gets none. *)
Theorem should_review_iff cfg self file_changes :
  let filtered := fst (filter_files cfg self file_changes) in
  (forall ff, In ff filtered ->
     In (file_change ff) file_changes
     /\ should_skip_file (path_of (file_change ff)) = false
     /\ note_only ff = should_note_only (path_of (file_change ff))
     /\ (should_review ff = true <->
         note_only ff = false /\ status (file_change ff) <> "deleted")
     /\ (status (file_change ff) = "deleted" -> should_review ff = false))
  /\ (forall fc, In fc file_changes ->
        should_skip_file (path_of fc) = false ->
        exists ff, In ff filtered /\ file_change ff = fc)
  /\ (forall fc, In fc file_changes ->
        should_skip_file (path_of fc) = true ->
        forall ff, In ff filtered -> path_of (file_change ff) <> path_of fc).
Proof.
  cbn zeta. rewrite filter_files_spec. cbn [fst]. unfold classifications.
  split; [|split].
  - intros ff Hin. apply in_map_iff in Hin as (fc & <- & Hfc).
    apply filter_In in Hfc as [Hfc Hskip]. apply negb_true_iff in Hskip.
    cbn [analyse file_change note_only should_review].
    repeat split; try assumption.
    + apply andb_true_iff in H as [H _]. now apply negb_true_iff in H.
    + apply andb_true_iff in H as [_ H]. apply negb_true_iff in H.
      now apply String.eqb_neq in H.
    + intros [Hn Hs]. rewrite Hn. apply String.eqb_neq in Hs. now rewrite Hs.
    + intros ->. rewrite String.eqb_refl. apply andb_false_r.
  - intros fc Hin Hskip. exists (analyse cfg fc). split; [|reflexivity].
    apply in_map, filter_In. split; [assumption|]. now rewrite Hskip.
  - intros fc _ Hskip ff Hin Heq.
    apply in_map_iff in Hin as (fc' & <- & Hfc').
    apply filter_In in Hfc' as [_ Hns]. cbn [analyse file_change] in Heq.
    rewrite Heq, Hskip in Hns. discriminate.
Qed.

Lemma should_review_iff_witness :
  In (analyse default_config (change "src/old.py" "" "deleted"))
     (fst (filter_files default_config FileFilter_init sample_changes))
  /\ should_review (analyse default_config (change "src/old.py" "" "deleted"))
     = false.
Proof.
  assert (Hin : In (analyse default_config (change "src/old.py" "" "deleted"))
                  (fst (filter_files default_config FileFilter_init
                          sample_changes))).
  { rewrite filter_files_spec. right. left. reflexivity. }
  split; [exact Hin|].
  pose proof (should_review_iff default_config FileFilter_init sample_changes)
    as H.
  cbv zeta in H. destruct H as [H _].
  destruct (H _ Hin) as (_ & _ & _ & _ & Hdeleted).
  apply Hdeleted. reflexivity.
Defined.

(** C8.  A file whose path is [data/export.parquet] gets a record with
    [note_only] true and [should_review] false, the record is in the
    returned list, and the log gains one entry for it, with the
    note-only reason.  When no other input file has this path, the
    entries of the log about the path are exactly this one. *)
Theorem parquet_note_only cfg before fc after :
  path_of fc = "data/export.parquet" ->
  (forall fc', In fc' (before ++ after) -> path_of fc' <> "data/export.parquet") ->
  let '(filtered, self') :=
    filter_files cfg FileFilter_init (before ++ fc :: after) in
  In (analyse cfg fc) filtered
  /\ note_only (analyse cfg fc) = true
  /\ should_review (analyse cfg fc) = false
  /\ entries_for "data/export.parquet" (get_skipped_files self')
     = [("data/export.parquet", NOTE_ONLY_REASON)].
Proof.
  intros Hp Hothers. rewrite filter_files_spec.
  assert (Hskip : should_skip_file (path_of fc) = false) by now rewrite Hp.
  assert (Hnote : should_note_only (path_of fc) = true) by now rewrite Hp.
  split; [|split; [|split]].
  - rewrite classifications_app. apply in_or_app. right.
    unfold classifications. cbn [filter]. rewrite Hskip. now left.
  - cbn [analyse note_only]. exact Hnote.
  - cbn [analyse should_review]. now rewrite Hnote.
  - unfold get_skipped_files, FileFilter_init. cbn [skipped_files app].
    change (before ++ fc :: after) with (before ++ [fc] ++ after).
    rewrite !log_entries_app, !entries_for_app.
    rewrite (entries_for_other _ before), (entries_for_other _ after)
      by (intros fc' Hin; apply Hothers, in_or_app; tauto).
    unfold log_entries at 1. cbn [flat_map]. unfold log_entry.
    rewrite Hskip, Hnote, Hp. reflexivity.
Qed.

Lemma parquet_note_only_witness :
  path_of parquet_export = "data/export.parquet"
  /\ In (analyse default_config parquet_export)
       (fst (filter_files default_config FileFilter_init sample_changes))
  /\ entries_for "data/export.parquet"
       (get_skipped_files
          (snd (filter_files default_config FileFilter_init sample_changes)))
     = [("data/export.parquet", NOTE_ONLY_REASON)].
Proof.
  split; [reflexivity|].
  pose proof (parquet_note_only default_config
    [change "src/app.py" "" "modified"; change "yarn.lock" "" "modified";
     change "src/old.py" "" "deleted"]
    parquet_export [change "logo.png" "" "added"] eq_refl) as H.
  change (?a ++ parquet_export :: ?b) with sample_changes in H.
  destruct (filter_files default_config FileFilter_init sample_changes)
    as [filtered self'].
  cbn [fst snd].
  assert (Hothers : forall fc',
    In fc' ([change "src/app.py" "" "modified"; change "yarn.lock" "" "modified";
             change "src/old.py" "" "deleted"] ++ [change "logo.png" "" "added"]) ->
    path_of fc' <> "data/export.parquet").
  { intros fc' Hin. cbn in Hin.
    destruct Hin as [<-|[<-|[<-|[<-|[]]]]]; vm_compute; discriminate. }
  destruct (H Hothers) as (Hin & _ & _ & Hlog). split; assumption.
Defined.

(** C10.  The log of an instance is never reset: after [n] calls of
    [filter_files] with the same input on a new instance, the log is the
    log of one call repeated [n] times. *)
Theorem skipped_files_accumulate cfg file_changes n :
  get_skipped_files (filter_files_times n cfg FileFilter_init file_changes)
  = List.concat (repeat
      (get_skipped_files (snd (filter_files cfg FileFilter_init file_changes)))
      n).
Proof.
  rewrite filter_files_spec. unfold get_skipped_files. cbn [snd skipped_files app].
  induction n as [|n IH]; [reflexivity|].
  cbn [filter_files_times]. rewrite filter_files_spec. cbn [snd skipped_files].
  rewrite IH. clear IH.
  induction n as [|n IH]; cbn [repeat List.concat].
  - now rewrite app_nil_r.
  - rewrite <- app_assoc. f_equal. exact IH.
Qed.

(** ** Priorities *)

Lemma is_critical_path_iff P :
  is_critical_path P = true <-> matches_critical P.
Proof.
  unfold is_critical_path, matches_critical, CRITICAL_PATTERNS.
  rewrite existsb_exists. split.
  - intros (p & Hin & Hm). apply in_map_iff in Hin as (k & <- & Hk).
    now exists k.
  - intros (k & Hk & Hm). exists (critical_pattern k). split; [|assumption].
    apply in_map_iff. now exists k.
Qed.

Lemma eat_ignorecase k : forall s,
  Py.startswith (Py.lower s) (Py.lower k) = true ->
  exists r, eat true k s = Some r.
Proof.
  induction k as [|a k IH]; intros s H.
  - now exists s.
  - destruct s as [|b s]; [discriminate|].
    cbn in H. apply andb_true_iff in H as [Hab Hrest].
    cbn [eat]. unfold char_eq. rewrite Hab. now apply IH.
Qed.

Lemma startswith_empty s : Py.startswith s "" = true.
Proof. now destruct s. Qed.

Lemma dotstar_here (k : string -> bool) s : k s = true -> dotstar k s = true.
Proof. intros H. destruct s; cbn; now rewrite H. Qed.

(** On a text with no newline, a critical pattern finds its keyword
    wherever the lower-cased text contains it. *)
Lemma critical_pattern_contains k : forall s,
  Py.contains NL s = false ->
  Py.contains (Py.lower k) (Py.lower s) = true ->
  match_ (critical_pattern k) s = true.
Proof.
  unfold match_, critical_pattern. cbn [items IGNORECASE match_items].
  assert (Hhere : forall t, Py.startswith (Py.lower t) (Py.lower k) = true ->
    match eat true k t with
    | Some r => dotstar (fun _ => true) r
    | None => false
    end = true).
  { intros t Ht. destruct (eat_ignorecase k t Ht) as [r ->].
    now apply dotstar_here. }
  induction s as [|c s IH]; intros Hnl Hc.
  - apply dotstar_here, Hhere. cbn in Hc. now rewrite orb_false_r in Hc.
  - cbn [Py.lower Py.contains] in Hc. apply orb_true_iff in Hc as [Hc|Hc].
    + now apply dotstar_here, Hhere.
    + cbn [Py.contains] in Hnl. apply orb_false_iff in Hnl as [Hc0 Hnl].
      cbn [dotstar]. apply orb_true_iff. right.
      unfold NL in Hc0. cbn [Py.startswith] in Hc0.
      rewrite startswith_empty, andb_true_r, Ascii.eqb_sym in Hc0.
      rewrite Hc0.
      now apply IH.
Qed.

(** C6.  A path that matches a critical pattern has priority critical,
    whether or not its lower-case form contains [test] or [spec]; so has
    every path with no newline whose lower-case form contains a critical
    keyword, and so has [src/auth/login_test.py].  A path that matches no
    critical pattern has priority low when its lower-case form contains
    [test] or [spec], and normal otherwise. *)
Theorem get_file_priority_cases (P : string) :
  (matches_critical P -> get_file_priority P = "critical")
  /\ (forall k, In k CRITICAL_KEYWORDS ->
        Py.contains k (Py.lower P) = true -> Py.contains NL P = false ->
        get_file_priority P = "critical")
  /\ (~ matches_critical P ->
        Py.contains "test" (Py.lower P) = true
        \/ Py.contains "spec" (Py.lower P) = true ->
        get_file_priority P = "low")
  /\ (~ matches_critical P ->
        Py.contains "test" (Py.lower P) = false ->
        Py.contains "spec" (Py.lower P) = false ->
        get_file_priority P = "normal")
  /\ get_file_priority "src/auth/login_test.py" = "critical"
  /\ Py.contains "test" (Py.lower "src/auth/login_test.py") = true.
Proof.
  assert (Hcrit : matches_critical P -> get_file_priority P = "critical").
  { intros H. apply is_critical_path_iff in H. unfold get_file_priority.
    now rewrite H. }
  assert (Hnot : ~ matches_critical P -> is_critical_path P = false).
  { intros H. destruct (is_critical_path P) eqn:E; [|reflexivity].
    now apply is_critical_path_iff in E. }
  repeat split.
  - exact Hcrit.
  - intros k Hk Hc Hnl. apply Hcrit. exists k. split; [assumption|].
    apply critical_pattern_contains; [assumption|].
    replace (Py.lower k) with k; [assumption|].
    cbn in Hk. repeat (destruct Hk as [<-|Hk]; [reflexivity|]). contradiction.
  - intros H Hts. unfold get_file_priority. rewrite (Hnot H).
    destruct Hts as [-> | ->]; [reflexivity|]. now rewrite orb_true_r.
  - intros H Ht Hs. unfold get_file_priority. now rewrite (Hnot H), Ht, Hs.
Qed.

Lemma get_file_priority_cases_witness :
  matches_critical "src/auth/login_test.py"
  /\ get_file_priority "src/auth/login_test.py" = "critical".
Proof.
  assert (H : matches_critical "src/auth/login_test.py").
  { exists "auth". split; [now left | reflexivity]. }
  split; [exact H|].
  exact (proj1 (get_file_priority_cases "src/auth/login_test.py") H).
Defined.

(** ** Lines and indices *)

Lemma count_nonneg c s : 0 <= Py.count c s.
Proof.
  induction s as [|a s IH]; cbn [Py.count]; [lia|].
  destruct (Ascii.eqb a c); lia.
Qed.

Lemma split_length c s : llen (Py.split c s) = Py.count c s + 1.
Proof.
  unfold llen. induction s as [|a s IH]; [reflexivity|].
  pose proof (count_nonneg c s) as Hc.
  cbn [Py.split Py.count]. destruct (Ascii.eqb a c).
  - cbn [List.length]. lia.
  - destruct (Py.split c s) as [|w ws]; cbn [List.length] in *; lia.
Qed.

Lemma index_in_range {A} (l : list A) i :
  0 <= i < llen l -> exists x, Py.index l i = Some x.
Proof.
  unfold llen, Py.index. intros H.
  destruct (Z.ltb_spec i 0); [lia|].
  destruct (nth_error l (Z.to_nat i)) eqn:E; [now eexists|].
  apply nth_error_None in E. lia.
Qed.

(** ** [_find_breakpoint] *)

(** Within the list, the search raises nothing and answers [end_] or a
    position after one of the lines it has looked at. *)
Lemma find_breakpoint_loop_range lines end_ n : forall i0,
  0 <= i0 + 1 - Z.of_nat n -> i0 < llen lines ->
  exists b, find_breakpoint_loop lines i0 n end_ = Some b
            /\ (b = end_ \/ i0 + 1 - Z.of_nat n < b <= i0 + 1).
Proof.
  induction n as [|n IH]; intros i0 Hlo Hhi.
  - exists end_. split; [reflexivity|now left].
  - cbn [find_breakpoint_loop].
    destruct (index_in_range lines i0) as [line ->]; [lia|].
    destruct (good_breakpoint line).
    + exists (i0 + 1). split; [reflexivity|]. right. lia.
    + destruct (IH (i0 - 1)) as (b & Hb & Hr); [lia|lia|].
      exists b. split; [assumption|]. destruct Hr; [now left|right; lia].
Qed.

Lemma find_breakpoint_range lines start end_ :
  0 <= start -> end_ <= llen lines ->
  exists b, _find_breakpoint lines start end_ = Some b
            /\ (b = end_ \/ start < b <= end_).
Proof.
  intros Hs He. unfold _find_breakpoint.
  destruct (Z.le_gt_cases end_ start) as [H|H].
  - replace (Z.to_nat (end_ - start)) with O by lia.
    exists end_. split; [reflexivity|now left].
  - destruct (find_breakpoint_loop_range lines end_ (Z.to_nat (end_ - start))
                (end_ - 1)) as (b & Hb & Hr); [lia|lia|].
    exists b. split; [assumption|]. destruct Hr; [now left|right; lia].
Qed.

(** No line looked at is a breakpoint: the answer is [end_]. *)
Lemma find_breakpoint_loop_none lines end_ n : forall i0,
  (forall i, i0 - Z.of_nat n < i <= i0 ->
     exists line, Py.index lines i = Some line /\ good_breakpoint line = false) ->
  find_breakpoint_loop lines i0 n end_ = Some end_.
Proof.
  induction n as [|n IH]; intros i0 H; [reflexivity|].
  cbn [find_breakpoint_loop].
  destruct (H i0) as (line & -> & ->); [lia|].
  apply IH. intros i Hi. apply H. lia.
Qed.

(** The nearest breakpoint to the end of the window is at index [b]:
    the answer is [b + 1]. *)
Lemma find_breakpoint_loop_found lines end_ b n : forall i0,
  i0 - Z.of_nat n < b <= i0 ->
  (exists line, Py.index lines b = Some line /\ good_breakpoint line = true) ->
  (forall i, b < i <= i0 ->
     exists line, Py.index lines i = Some line /\ good_breakpoint line = false) ->
  find_breakpoint_loop lines i0 n end_ = Some (b + 1).
Proof.
  induction n as [|n IH]; intros i0 Hb Hgood Hnone; [lia|].
  cbn [find_breakpoint_loop].
  destruct (Z.eq_dec b i0) as [->|Hne].
  - destruct Hgood as (line & -> & ->). reflexivity.
  - destruct (Hnone i0) as (line & -> & ->); [lia|].
    apply IH; [lia|assumption|]. intros i Hi. apply Hnone. lia.
Qed.

(** ** One iteration of the loop of [_chunk_diff] *)

(** What [chunk_end_at] answers: the tentative end, or a breakpoint
    beyond the cursor found by the search. *)
Lemma chunk_end_at_cases cfg lines cur :
  0 <= cur ->
  let tentative := Z.min (cur + CHUNK_SIZE_LINES cfg) (llen lines) in
  exists e, chunk_end_at cfg lines cur = Some e
    /\ (e = tentative
        \/ tentative < llen lines
           /\ _find_breakpoint lines (Z.max (tentative - 50) cur) tentative = Some e
           /\ cur < e <= tentative).
Proof.
  intros Hcur tentative. unfold chunk_end_at. fold tentative.
  destruct (Z.ltb_spec tentative (llen lines)) as [Hlt|Hge].
  - destruct (find_breakpoint_range lines (Z.max (tentative - 50) cur) tentative)
      as (b & Hb & Hr); [lia|lia|].
    rewrite Hb. destruct (Z.gtb_spec b cur) as [Hgt|Hle].
    + exists b. split; [reflexivity|].
      destruct Hr as [->|Hr]; [now left|right; repeat split; try assumption; lia].
    + exists tentative. split; [reflexivity|now left].
  - exists tentative. split; [reflexivity|now left].
Qed.

(** With a positive chunk size the end of a chunk is beyond its start. *)
Lemma chunk_end_at_progress cfg lines cur :
  1 <= CHUNK_SIZE_LINES cfg -> 0 <= cur < llen lines ->
  exists e, chunk_end_at cfg lines cur = Some e /\ cur < e <= llen lines.
Proof.
  intros Hsize Hcur.
  destruct (chunk_end_at_cases cfg lines cur) as (e & He & Hcases); [lia|].
  exists e. split; [assumption|]. lia.
Qed.

(** ** The loop of [_chunk_diff] *)

(** With a positive chunk size and fuel for one iteration per remaining
    line, the loop returns: it adds to [chunks] a chain of chunks that
    covers the lines after the cursor. *)
Lemma chunk_loop_returns cfg path lines :
  1 <= CHUNK_SIZE_LINES cfg ->
  forall fuel cur num chunks,
  0 <= cur <= llen lines -> llen lines - cur <= Z.of_nat fuel ->
  exists new,
    chunk_loop fuel cfg path lines cur num chunks = Returns (chunks ++ new)
    /\ chained (cur + 1) num (llen lines) new
    /\ Forall (fun chunk => filepath chunk = path) new.
Proof.
  intros Hsize. induction fuel as [|fuel IH]; intros cur num chunks Hcur Hfuel.
  - exists []. cbn [chunk_loop chained].
    destruct (Z.ltb_spec cur (llen lines)); [lia|].
    rewrite app_nil_r. repeat split; [lia|constructor].
  - cbn [chunk_loop]. destruct (Z.ltb_spec cur (llen lines)) as [Hlt|Hge].
    + destruct (chunk_end_at_progress cfg lines cur Hsize) as (e & -> & He);
        [lia|].
      cbv zeta. set (chunk := Build_DiffChunk _ _ _ _ _ _).
      destruct (IH e (num + 1) (chunks ++ [chunk])) as (new & Hrun & Hch & Hp);
        [lia|lia|].
      exists (chunk :: new). rewrite Hrun, <- app_assoc. split; [reflexivity|].
      split.
      * cbn [chained]. subst chunk. cbn. repeat split; try lia. exact Hch.
      * constructor; [reflexivity|assumption].
    + exists []. rewrite app_nil_r. cbn [chained].
      repeat split; [lia|constructor].
Qed.

(** More fuel than needed changes nothing. *)
Lemma chunk_loop_fuel_irrelevant cfg path lines fuel : forall cur num chunks r,
  chunk_loop fuel cfg path lines cur num chunks = Returns r ->
  forall fuel', (fuel <= fuel')%nat ->
  chunk_loop fuel' cfg path lines cur num chunks = Returns r.
Proof.
  induction fuel as [|fuel IH]; intros cur num chunks r Hrun fuel' Hle.
  - cbn [chunk_loop] in Hrun.
    destruct fuel'; cbn [chunk_loop];
      destruct (cur <? llen lines); (discriminate || assumption).
  - destruct fuel' as [|fuel']; [lia|]. cbn [chunk_loop] in *.
    destruct (cur <? llen lines); [|assumption].
    destruct (chunk_end_at cfg lines cur); [|discriminate].
    apply IH; [assumption|lia].
Qed.

(** Two runs that return, whatever their fuel, return the same chunks. *)
Lemma chunk_diff_deterministic cfg path d fuel fuel' r r' :
  _chunk_diff fuel cfg path d = Returns r ->
  _chunk_diff fuel' cfg path d = Returns r' ->
  r = r'.
Proof.
  unfold _chunk_diff. intros H H'.
  destruct (chunk_loop fuel cfg path _ 0 1 []) as [l| |] eqn:E;
    try discriminate.
  destruct (chunk_loop fuel' cfg path _ 0 1 []) as [l'| |] eqn:E';
    try discriminate.
  apply chunk_loop_fuel_irrelevant with (fuel' := Nat.max fuel fuel') in E;
    [|lia].
  apply chunk_loop_fuel_irrelevant with (fuel' := Nat.max fuel fuel') in E';
    [|lia].
  rewrite E in E'. injection E' as <-. congruence.
Qed.

(** ** Chains of chunks *)

Lemma chained_set_total n : forall chunks first num last,
  chained first num last chunks ->
  chained first num last (map (set_total_chunks n) chunks).
Proof.
  induction chunks as [|c cs IH]; intros first num last H; [exact H|].
  cbn [map chained set_total_chunks start_line end_line chunk_number] in *.
  destruct H as (H1 & H2 & H3 & H4). repeat split; try assumption; try lia.
  now apply IH.
Qed.

Lemma chained_bounds : forall chunks first num last,
  chained first num last chunks -> first <= last + 1.
Proof.
  induction chunks as [|c cs IH]; intros first num last H; cbn [chained] in H.
  - lia.
  - destruct H as (H1 & H2 & H3 & H4). lia.
Qed.

(** The chunk at position [k] of a chain has number [num + k], lies
    within the lines of the chain, and the next chunk starts on the line
    after its last line. *)
Lemma chained_nth : forall chunks first num last k chunk,
  chained first num last chunks ->
  nth_error chunks k = Some chunk ->
  chunk_number chunk = num + Z.of_nat k
  /\ first <= start_line chunk <= end_line chunk
  /\ end_line chunk <= last
  /\ (k = O -> start_line chunk = first)
  /\ (forall next, nth_error chunks (S k) = Some next ->
        start_line next = end_line chunk + 1)
  /\ (nth_error chunks (S k) = None -> end_line chunk = last).
Proof.
  induction chunks as [|c cs IH]; intros first num last k chunk H Hk.
  - destruct k; discriminate.
  - cbn [chained] in H. destruct H as (H1 & H2 & H3 & H4).
    destruct k as [|k].
    + injection Hk as <-. repeat split; try lia.
      * intros next Hn. cbn in Hn. destruct cs as [|c' cs']; [discriminate|].
        injection Hn as <-. cbn [chained] in H4. lia.
      * intros Hn. cbn in Hn. destruct cs as [|c' cs']; [|discriminate].
        cbn [chained] in H4. lia.
    + cbn [nth_error] in Hk.
      destruct (IH _ _ _ _ _ H4 Hk) as (I1 & I2 & I3 & I4 & I5 & I6).
      repeat split; try lia.
      * intros next Hn. now apply I5.
      * intros Hn. now apply I6.
Qed.

(** Every line of a chain is in one of its chunks. *)
Lemma chained_cover : forall chunks first num last line,
  chained first num last chunks -> first <= line <= last ->
  exists k chunk, nth_error chunks k = Some chunk
    /\ start_line chunk <= line <= end_line chunk.
Proof.
  induction chunks as [|c cs IH]; intros first num last line H Hl.
  - cbn [chained] in H. lia.
  - cbn [chained] in H. destruct H as (H1 & H2 & H3 & H4).
    destruct (Z.le_gt_cases line (end_line c)) as [Hle|Hgt].
    + exists O, c. split; [reflexivity|lia].
    + destruct (IH _ _ _ line H4) as (k & chunk & Hk & Hr); [lia|].
      now exists (S k), chunk.
Qed.

(** A later chunk of a chain starts after an earlier one ends. *)
Lemma chained_ordered : forall chunks first num last j k a b,
  chained first num last chunks -> (j < k)%nat ->
  nth_error chunks j = Some a -> nth_error chunks k = Some b ->
  end_line a < start_line b.
Proof.
  induction chunks as [|c cs IH]; intros first num last j k a b H Hjk Hj Hk.
  - destruct j; discriminate.
  - cbn [chained] in H. destruct H as (H1 & H2 & H3 & H4).
    destruct k as [|k]; [lia|]. cbn [nth_error] in Hk.
    destruct j as [|j].
    + injection Hj as <-.
      destruct (chained_nth _ _ _ _ _ _ H4 Hk) as (_ & I2 & _). lia.
    + cbn [nth_error] in Hj. apply (IH _ _ _ j k a b H4); [lia|assumption..].
Qed.

Lemma chained_last : forall chunks first num last,
  chained first num last chunks -> chunks <> [] ->
  exists front chunk, chunks = front ++ [chunk] /\ end_line chunk = last.
Proof.
  induction chunks as [|c cs IH]; intros first num last H Hne; [congruence|].
  cbn [chained] in H. destruct H as (H1 & H2 & H3 & H4).
  destruct cs as [|c' cs'].
  - exists [], c. split; [reflexivity|]. cbn [chained] in H4. lia.
  - destruct (IH _ _ _ H4) as (front & chunk & -> & He); [discriminate|].
    now exists (c :: front), chunk.
Qed.

(** ** [_chunk_diff] *)

Lemma chunk_diff_returns cfg path d fuel :
  1 <= CHUNK_SIZE_LINES cfg ->
  llen (Py.split Py.nl d) <= Z.of_nat fuel ->
  exists chunks,
    _chunk_diff fuel cfg path d = Returns chunks
    /\ chunks <> []
    /\ chained 1 1 (llen (Py.split Py.nl d)) chunks
    /\ Forall (fun chunk => total_chunks chunk = llen chunks) chunks.
Proof.
  intros Hsize Hfuel. unfold _chunk_diff.
  pose proof (count_nonneg Py.nl d) as Hc.
  pose proof (split_length Py.nl d) as Hn.
  destruct (chunk_loop_returns cfg path (Py.split Py.nl d) Hsize fuel 0 1 [])
    as (new & -> & Hch & _); [lia|lia|].
  cbn [app]. exists (map (set_total_chunks (llen new)) new).
  split; [reflexivity|]. split; [|split].
  - destruct new; [|discriminate]. cbn [chained] in Hch. lia.
  - now apply chained_set_total.
  - apply Forall_forall. intros c Hin. apply in_map_iff in Hin as (c0 & <- & _).
    unfold llen. now rewrite length_map.
Qed.

(** With a chunk size that is not positive the cursor never moves
    forward: whatever the fuel, the loop is still running when it is
    spent. *)
Lemma chunk_diff_nonpositive_size_runs cfg path d fuel :
  CHUNK_SIZE_LINES cfg <= 0 -> _chunk_diff fuel cfg path d = Runs.
Proof.
  intros Hsize. unfold _chunk_diff.
  pose proof (count_nonneg Py.nl d) as Hc.
  pose proof (split_length Py.nl d) as Hn.
  set (lines := Py.split Py.nl d) in *.
  assert (Hloop : forall cur num chunks, cur < llen lines ->
    chunk_loop fuel cfg path lines cur num chunks = Runs).
  { induction fuel as [|fuel IH]; intros cur num chunks Hcur; cbn [chunk_loop];
      destruct (Z.ltb_spec cur (llen lines)); try lia; [reflexivity|].
    assert (He : chunk_end_at cfg lines cur
                 = Some (cur + CHUNK_SIZE_LINES cfg)).
    { unfold chunk_end_at.
      replace (Z.min (cur + CHUNK_SIZE_LINES cfg) (llen lines))
        with (cur + CHUNK_SIZE_LINES cfg) by lia.
      destruct (Z.ltb_spec (cur + CHUNK_SIZE_LINES cfg) (llen lines)); [|lia].
      unfold _find_breakpoint.
      replace (Z.to_nat (cur + CHUNK_SIZE_LINES cfg
                         - Z.max (cur + CHUNK_SIZE_LINES cfg - 50) cur))
        with O by lia.
      cbn [find_breakpoint_loop].
      destruct (Z.gtb_spec (cur + CHUNK_SIZE_LINES cfg) cur); [lia|].
      reflexivity. }
    rewrite He. apply IH. lia. }
  rewrite Hloop; [reflexivity|lia].
Qed.

(** C3.  When a file is chunked (with a positive chunk size), the chunks
    returned partition the [N] line elements of its diff: chunk [k]
    (from 0) has number [k + 1] and carries the number of chunks as
    [total_chunks]; the first chunk starts at line 1, each next chunk
    starts on the line after the end of the one before, the last chunk
    ends at line [N]; no chunk is empty; and every line from 1 to [N] is
    in the half-open range [[start_line, end_line + 1)] of exactly one
    chunk. *)
Theorem chunks_partition_lines cfg ff fuel :
  1 <= CHUNK_SIZE_LINES cfg ->
  should_chunk ff = true ->
  let N := llen (Py.split Py.nl (diff (file_change ff))) in
  N <= Z.of_nat fuel ->
  exists chunks,
    process_file fuel cfg ff = Returns chunks
    /\ chunks <> []
    /\ (forall k chunk, nth_error chunks k = Some chunk ->
          chunk_number chunk = Z.of_nat k + 1
          /\ total_chunks chunk = llen chunks
          /\ 1 <= start_line chunk <= end_line chunk
          /\ end_line chunk <= N
          /\ (k = O -> start_line chunk = 1)
          /\ (forall next, nth_error chunks (S k) = Some next ->
                start_line next = end_line chunk + 1)
          /\ (nth_error chunks (S k) = None -> end_line chunk = N))
    /\ (forall line, 1 <= line <= N ->
          exists k chunk,
            nth_error chunks k = Some chunk
            /\ start_line chunk <= line < end_line chunk + 1
            /\ forall k' chunk',
                 nth_error chunks k' = Some chunk' ->
                 start_line chunk' <= line < end_line chunk' + 1 ->
                 k' = k).
Proof.
  intros Hsize Hchunk N Hfuel. unfold process_file. rewrite Hchunk. cbn [negb].
  destruct (chunk_diff_returns cfg (path_of (file_change ff))
              (diff (file_change ff)) fuel Hsize Hfuel)
    as (chunks & Hrun & Hne & Hch & Htot).
  fold N in Hch. exists chunks. split; [assumption|]. split; [assumption|].
  split.
  - intros k chunk Hk.
    destruct (chained_nth _ _ _ _ _ _ Hch Hk) as (I1 & I2 & I3 & I4 & I5 & I6).
    rewrite Forall_forall in Htot.
    repeat split; try lia; try assumption.
    apply Htot. eapply nth_error_In, Hk.
  - intros line Hline.
    destruct (chained_cover _ _ _ _ line Hch Hline) as (k & chunk & Hk & Hr).
    exists k, chunk. split; [assumption|]. split; [lia|].
    intros k' chunk' Hk' Hr'.
    destruct (Nat.lt_trichotomy k' k) as [Hlt|[Heq|Hgt]]; [|assumption|].
    + pose proof (chained_ordered _ _ _ _ _ _ _ _ Hch Hlt Hk' Hk). lia.
    + pose proof (chained_ordered _ _ _ _ _ _ _ _ Hch Hgt Hk Hk'). lia.
Qed.

Lemma chunks_partition_lines_witness :
  1 <= CHUNK_SIZE_LINES default_config
  /\ should_chunk big_file = true
  /\ llen (Py.split Py.nl (diff (file_change big_file))) <= Z.of_nat 302
  /\ exists chunks,
       process_file 302 default_config big_file = Returns chunks
       /\ chunks <> [].
Proof.
  assert (H1 : 1 <= CHUNK_SIZE_LINES default_config) by (cbn; lia).
  assert (H2 : should_chunk big_file = true) by (vm_compute; reflexivity).
  assert (H3 : llen (Py.split Py.nl (diff (file_change big_file)))
               <= Z.of_nat 302) by (vm_compute; discriminate).
  repeat (split; [assumption|]).
  destruct (chunks_partition_lines default_config big_file 302 H1 H2 H3)
    as (chunks & Hrun & Hne & _).
  exists chunks. split; assumption.
Defined.

(** ** Line counts *)

Lemma split_nonempty c s : Py.split c s <> [].
Proof.
  destruct s as [|a s]; cbn [Py.split]; [discriminate|].
  destruct (Ascii.eqb a c); [discriminate|].
  destruct (Py.split c s); discriminate.
Qed.

Lemma split_terminated c s :
  Py.split c (s ++ String c EmptyString) = Py.split c s ++ [EmptyString].
Proof.
  induction s as [|a s IH].
  - cbn. now rewrite Ascii.eqb_refl.
  - cbn [String.append Py.split]. rewrite IH.
    destruct (Ascii.eqb a c); [reflexivity|].
    pose proof (split_nonempty c s) as Hne.
    destruct (Py.split c s); [congruence|reflexivity].
Qed.

(** An empty diff is not chunked when the thresholds are not negative. *)
Lemma empty_diff_not_chunked cfg fc :
  0 <= CHUNK_SIZE_LINES cfg -> 0 <= MAX_FILE_SIZE_KB cfg ->
  diff fc = "" -> should_chunk (analyse cfg fc) = false.
Proof.
  intros Hsize Hmax Hd. unfold analyse. cbn [should_chunk]. rewrite Hd.
  cbn [Py.count Py.len String.length Z.of_nat].
  apply orb_false_iff. split.
  - rewrite Z.gtb_ltb. now apply Z.ltb_ge.
  - unfold Qgtb, Qle_bool, inject_Z. cbn [Qnum Qden].
    apply negb_false_iff, Z.leb_le. lia.
Qed.

(** ** The example of 301 lines *)

Lemma chunk_loop_done fuel cfg path lines cur num chunks :
  llen lines <= cur ->
  chunk_loop fuel cfg path lines cur num chunks = Returns chunks.
Proof.
  intros H. destruct fuel; cbn [chunk_loop];
    destruct (Z.ltb_spec cur (llen lines)); (lia || reflexivity).
Qed.

(** Two chunks: the first ends at [e], the second at the last line. *)
Lemma two_chunks cfg path lines fuel e :
  (2 <= fuel)%nat ->
  0 < llen lines -> 0 < e < llen lines ->
  llen lines <= e + CHUNK_SIZE_LINES cfg ->
  chunk_end_at cfg lines 0 = Some e ->
  summaries
    (match chunk_loop fuel cfg path lines 0 1 [] with
     | Returns chunks => Returns (map (set_total_chunks (llen chunks)) chunks)
     | Raises => Raises
     | Runs => Runs
     end)
  = Some [(1, 1, e, 2); (2, e + 1, llen lines, 2)].
Proof.
  intros Hfuel Hn He Hsize Hend.
  destruct fuel as [|[|fuel]]; [lia|lia|].
  assert (Hend2 : chunk_end_at cfg lines e = Some (llen lines)).
  { unfold chunk_end_at.
    replace (Z.min (e + CHUNK_SIZE_LINES cfg) (llen lines)) with (llen lines)
      by lia.
    now rewrite Z.ltb_irrefl. }
  cbn [chunk_loop].
  destruct (Z.ltb_spec 0 (llen lines)); [|lia]. rewrite Hend.
  destruct (Z.ltb_spec e (llen lines)); [|lia]. rewrite Hend2.
  rewrite chunk_loop_done by lia. reflexivity.
Qed.

(** C1.  With chunks of 300 lines, a diff of 301 line elements that is
    chunked gives two chunks.  The search for a breakpoint looks at
    lines 251 to 300 only, so a blank line on line 250 plays no part.
    When none of the lines 251 to 300 is a breakpoint, the chunks are
    lines 1 to 300 and line 301; when line [b] is the last breakpoint
    among them, the chunks are lines 1 to [b] and [b + 1] to 301.  Both
    chunks carry [total_chunks] 2. *)
Theorem chunks_of_301_lines cfg ff fuel :
  CHUNK_SIZE_LINES cfg = 300 ->
  should_chunk ff = true ->
  let lines := Py.split Py.nl (diff (file_change ff)) in
  llen lines = 301 ->
  (2 <= fuel)%nat ->
  ((forall n line, 251 <= n <= 300 -> Py.index lines (n - 1) = Some line ->
      good_breakpoint line = false) ->
   summaries (process_file fuel cfg ff)
   = Some [(1, 1, 300, 2); (2, 301, 301, 2)])
  /\ (forall b line,
        251 <= b <= 300 ->
        Py.index lines (b - 1) = Some line -> good_breakpoint line = true ->
        (forall n line', b < n <= 300 -> Py.index lines (n - 1) = Some line' ->
           good_breakpoint line' = false) ->
        summaries (process_file fuel cfg ff)
        = Some [(1, 1, b, 2); (2, b + 1, 301, 2)]).
Proof.
  intros Hsize Hchunk lines Hlen Hfuel.
  assert (Hidx : forall i, 0 <= i < 301 -> exists line, Py.index lines i = Some line).
  { intros i Hi. apply index_in_range. lia. }
  assert (Hrun : forall e, 0 < e < 301 -> chunk_end_at cfg lines 0 = Some e ->
    summaries (process_file fuel cfg ff) = Some [(1, 1, e, 2); (2, e + 1, 301, 2)]).
  { intros e He Hend. unfold process_file, _chunk_diff. rewrite Hchunk.
    cbn [negb]. fold lines. rewrite <- Hlen.
    apply two_chunks; try assumption; lia. }
  assert (Hat : chunk_end_at cfg lines 0
                = match find_breakpoint_loop lines 299 50 300 with
                  | Some b => Some (if b >? 0 then b else 300)
                  | None => None
                  end).
  { unfold chunk_end_at, _find_breakpoint. rewrite Hsize, Hlen. reflexivity. }
  split.
  - intros Hnone. apply Hrun; [lia|]. rewrite Hat.
    rewrite find_breakpoint_loop_none; [reflexivity|].
    intros i Hi. destruct (Hidx i) as [line Hline]; [lia|].
    exists line. split; [assumption|].
    apply (Hnone (i + 1)); [lia|]. now replace (i + 1 - 1) with i by lia.
  - intros b line Hb Hline Hgood Hnone. apply Hrun; [lia|]. rewrite Hat.
    rewrite (find_breakpoint_loop_found lines 300 (b - 1)).
    + replace (b - 1 + 1) with b by lia.
      destruct (Z.gtb_spec b 0); [reflexivity|lia].
    + lia.
    + now exists line.
    + intros i Hi. destruct (Hidx i) as [line' Hline']; [lia|].
      exists line'. split; [assumption|].
      apply (Hnone (i + 1)); [lia|]. now replace (i + 1 - 1) with i by lia.
Qed.

Lemma chunks_of_301_lines_witness :
  CHUNK_SIZE_LINES chunk_at_300 = 300
  /\ should_chunk (analyse chunk_at_300 (change "src/big.py" diff_301 "modified"))
     = true
  /\ llen (Py.split Py.nl diff_301) = 301
  /\ Py.index (Py.split Py.nl diff_301) 249 = Some ""
  /\ summaries (process_file 2 chunk_at_300
       (analyse chunk_at_300 (change "src/big.py" diff_301 "modified")))
     = Some [(1, 1, 300, 2); (2, 301, 301, 2)]
  /\ Py.index (Py.split Py.nl diff_301_blank_251) 250 = Some ""
  /\ summaries (process_file 2 chunk_at_300
       (analyse chunk_at_300 (change "src/big.py" diff_301_blank_251 "modified")))
     = Some [(1, 1, 251, 2); (2, 252, 301, 2)].
Proof.
  split; [reflexivity|]. split; [vm_compute; reflexivity|].
  split; [vm_compute; reflexivity|]. split; [vm_compute; reflexivity|].
  split; [|split; [vm_compute; reflexivity|]].
  - refine (proj1 (chunks_of_301_lines chunk_at_300
      (analyse chunk_at_300 (change "src/big.py" diff_301 "modified")) 2
      eq_refl _ _ _) _).
    + vm_compute. reflexivity.
    + vm_compute. reflexivity.
    + apply Nat.le_refl.
    + intros n line Hn. cbn [file_change analyse change diff].
      assert (Hall : forallb (fun i =>
        match Py.index (Py.split Py.nl diff_301) (Z.of_nat i + 250) with
        | Some l => negb (good_breakpoint l)
        | None => false
        end) (seq 0 50) = true) by (vm_compute; reflexivity).
      rewrite forallb_forall in Hall.
      specialize (Hall (Z.to_nat (n - 251))).
      replace (Z.of_nat (Z.to_nat (n - 251)) + 250) with (n - 1) in Hall by lia.
      intros Hline. rewrite Hline in Hall. apply negb_true_iff, Hall.
      apply in_seq. lia.
  - refine (proj2 (chunks_of_301_lines chunk_at_300
      (analyse chunk_at_300 (change "src/big.py" diff_301_blank_251 "modified")) 2
      eq_refl _ _ _) 251 "" _ _ _ _).
    + vm_compute. reflexivity.
    + vm_compute. reflexivity.
    + apply Nat.le_refl.
    + lia.
    + vm_compute. reflexivity.
    + reflexivity.
    + intros n line Hn. cbn [file_change analyse change diff].
      assert (Hall : forallb (fun i =>
        match Py.index (Py.split Py.nl diff_301_blank_251) (Z.of_nat i + 251) with
        | Some l => negb (good_breakpoint l)
        | None => false
        end) (seq 0 49) = true) by (vm_compute; reflexivity).
      rewrite forallb_forall in Hall.
      specialize (Hall (Z.to_nat (n - 252))).
      replace (Z.of_nat (Z.to_nat (n - 252)) + 251) with (n - 1) in Hall by lia.
      intros Hline. rewrite Hline in Hall. apply negb_true_iff, Hall.
      apply in_seq. lia.
Defined.

(** C1, as the example stands.  The diff [diff_301] has 301 line
    elements and its line 250 is empty.  Classified with the default
    thresholds it counts 300 lines and is not chunked: one chunk, lines
    1 to 300.  Chunked all the same, it gives lines 1 to 300 and line
    301.  With a final newline it counts 301 lines, is chunked, and
    gives lines 1 to 300 and 301 to 302.  In no case are the chunks
    lines 1 to 250 and 251 to 301. *)
Lemma chunks_of_diff_301 :
  llen (Py.split Py.nl diff_301) = 301
  /\ Py.index (Py.split Py.nl diff_301) 249 = Some ""
  /\ summaries (process_file 301 default_config
       (analyse default_config (change "src/big.py" diff_301 "modified")))
     = Some [(1, 1, 300, 1)]
  /\ summaries (_chunk_diff 301 default_config "src/big.py" diff_301)
     = Some [(1, 1, 300, 2); (2, 301, 301, 2)]
  /\ line_count big_file = 301
  /\ summaries (process_file 302 default_config big_file)
     = Some [(1, 1, 300, 2); (2, 301, 302, 2)]
  /\ ~ (exists fuel,
          summaries (process_file fuel default_config
            (analyse default_config (change "src/big.py" diff_301 "modified")))
          = Some [(1, 1, 250, 2); (2, 251, 301, 2)])
  /\ ~ (exists fuel,
          summaries (_chunk_diff fuel default_config "src/big.py" diff_301)
          = Some [(1, 1, 250, 2); (2, 251, 301, 2)])
  /\ ~ (exists fuel,
          summaries (process_file fuel default_config big_file)
          = Some [(1, 1, 250, 2); (2, 251, 301, 2)]).
Proof.
  assert (Hdirect : summaries (_chunk_diff 301 default_config "src/big.py" diff_301)
                    = Some [(1, 1, 300, 2); (2, 301, 301, 2)])
    by (vm_compute; reflexivity).
  assert (Hbig : summaries (process_file 302 default_config big_file)
                 = Some [(1, 1, 300, 2); (2, 301, 302, 2)])
    by (vm_compute; reflexivity).
  repeat (split; [assumption || (vm_compute; reflexivity)|]).
  assert (Hfuel : forall cfg path d fuel fuel' l l',
    summaries (_chunk_diff fuel cfg path d) = Some l ->
    summaries (_chunk_diff fuel' cfg path d) = Some l' -> l = l').
  { intros cfg path d fuel fuel' l l' H H'.
    destruct (_chunk_diff fuel cfg path d) as [r| |] eqn:E; try discriminate.
    destruct (_chunk_diff fuel' cfg path d) as [r'| |] eqn:E'; try discriminate.
    rewrite (chunk_diff_deterministic _ _ _ _ _ _ _ E E') in H.
    cbn [summaries] in H, H'. congruence. }
  split; [|split].
  - intros [fuel H]. vm_compute in H. discriminate.
  - intros [fuel H]. pose proof (Hfuel _ _ _ _ _ _ _ H Hdirect). discriminate.
  - intros [fuel H]. pose proof (Hfuel _ _ _ _ _ _ _ H Hbig). discriminate.
Qed.

(** * Further properties

    ** Strings: [split] and [join] *)

Lemma append_assoc (a b c : string) :
  ((a ++ b) ++ c)%string = (a ++ (b ++ c))%string.
Proof. induction a as [|x a IH]; cbn; [reflexivity|now rewrite IH]. Qed.

Lemma append_empty_r (a : string) : (a ++ "")%string = a.
Proof. induction a as [|x a IH]; cbn; [reflexivity|now rewrite IH]. Qed.

Lemma join_cons sep w ws :
  ws <> [] -> Py.join sep (w :: ws) = (w ++ sep ++ Py.join sep ws)%string.
Proof. destruct ws; [congruence|reflexivity]. Qed.

Lemma join_app sep l1 l2 :
  l1 <> [] -> l2 <> [] ->
  Py.join sep (l1 ++ l2) = (Py.join sep l1 ++ sep ++ Py.join sep l2)%string.
Proof.
  intros H1 H2. induction l1 as [|w l1 IH]; [congruence|].
  destruct l1 as [|w' l1].
  - cbn [app]. now rewrite join_cons.
  - change ((w :: w' :: l1) ++ l2) with (w :: ((w' :: l1) ++ l2)).
    rewrite !join_cons by discriminate. rewrite IH by discriminate.
    now rewrite !append_assoc.
Qed.

(** Joining the pieces of a split gives the text back. *)
Lemma join_split s : Py.join NL (Py.split Py.nl s) = s.
Proof.
  induction s as [|a s IH]; [reflexivity|].
  cbn [Py.split]. pose proof (split_nonempty Py.nl s) as Hne.
  destruct (Ascii.eqb_spec a Py.nl) as [->|Hneq].
  - rewrite join_cons by assumption. now rewrite IH.
  - destruct (Py.split Py.nl s) as [|w ws]; [congruence|].
    destruct ws as [|w' ws].
    + cbn in *. now rewrite IH.
    + rewrite join_cons by discriminate.
      rewrite <- IH, (join_cons NL w) by discriminate. reflexivity.
Qed.

Lemma split_append w : forall s,
  Py.count Py.nl w = 0 ->
  Py.split Py.nl (w ++ s)
  = match Py.split Py.nl s with
    | [] => [w]
    | h :: t => (w ++ h)%string :: t
    end.
Proof.
  induction w as [|a w IH]; intros s Hw.
  - cbn [String.append]. pose proof (split_nonempty Py.nl s).
    destruct (Py.split Py.nl s); [congruence|reflexivity].
  - cbn [Py.count] in Hw. pose proof (count_nonneg Py.nl w).
    destruct (Ascii.eqb a Py.nl) eqn:E; [lia|].
    cbn [String.append Py.split]. rewrite E, IH by lia.
    now destruct (Py.split Py.nl s).
Qed.

(** No piece of a split contains the separator. *)
Lemma split_pieces s :
  Forall (fun w => Py.count Py.nl w = 0) (Py.split Py.nl s).
Proof.
  induction s as [|a s IH]; [repeat constructor|].
  cbn [Py.split]. destruct (Ascii.eqb a Py.nl) eqn:E.
  - constructor; [reflexivity|assumption].
  - destruct (Py.split Py.nl s) as [|w ws]; [repeat constructor; cbn; now rewrite E|].
    inversion IH as [|? ? Hw Hws]; subst.
    constructor; [|assumption]. cbn [Py.count]. rewrite E. lia.
Qed.

(** Splitting the join of lines without a newline gives the lines back. *)
Lemma split_join l :
  l <> [] -> Forall (fun w => Py.count Py.nl w = 0) l ->
  Py.split Py.nl (Py.join NL l) = l.
Proof.
  induction l as [|w l IH]; intros Hne Hall; [congruence|].
  inversion Hall as [|? ? Hw Hl]; subst.
  destruct l as [|w' l].
  - cbn [Py.join]. rewrite <- (append_empty_r w) at 1.
    rewrite split_append by assumption. cbn. now rewrite append_empty_r.
  - rewrite join_cons by discriminate. rewrite split_append by assumption.
    unfold NL at 1. cbn [String.append Py.split]. rewrite Ascii.eqb_refl.
    rewrite IH by (discriminate || assumption). now rewrite append_empty_r.
Qed.

(** ** Slices *)

Lemma slice_in_range {A} (l : list A) a b :
  0 <= a <= b -> b <= llen l ->
  Py.slice l a b = firstn (Z.to_nat (b - a)) (skipn (Z.to_nat a) l).
Proof.
  intros Ha Hb. unfold Py.slice, Py.clamp, llen in *.
  destruct (Z.ltb_spec a 0); [lia|]. destruct (Z.ltb_spec b 0); [lia|].
  now rewrite !Z.min_l by lia.
Qed.

Lemma slice_length {A} (l : list A) a b :
  0 <= a <= b -> b <= llen l -> llen (Py.slice l a b) = b - a.
Proof.
  intros Ha Hb. rewrite slice_in_range by assumption. unfold llen in *.
  rewrite length_firstn, length_skipn. lia.
Qed.

Lemma firstn_plus {A} n m : forall l : list A,
  firstn (n + m) l = firstn n l ++ firstn m (skipn n l).
Proof.
  induction n as [|n IH]; intros l; [reflexivity|].
  destruct l as [|x l]; cbn [Nat.add firstn skipn app].
  - now rewrite firstn_nil.
  - now rewrite IH.
Qed.

Lemma slice_app {A} (l : list A) a b c :
  0 <= a <= b -> b <= c -> c <= llen l ->
  Py.slice l a b ++ Py.slice l b c = Py.slice l a c.
Proof.
  intros Ha Hb Hc. rewrite !slice_in_range by lia.
  replace (Z.to_nat (c - a)) with (Z.to_nat (b - a) + Z.to_nat (c - b))%nat
    by lia.
  rewrite firstn_plus. f_equal. rewrite skipn_skipn. do 2 f_equal. lia.
Qed.

Lemma slice_to_end {A} (l : list A) a b :
  0 <= a <= b -> b <= llen l ->
  Py.slice l a b ++ skipn (Z.to_nat b) l = skipn (Z.to_nat a) l.
Proof.
  intros Ha Hb. rewrite slice_in_range by lia.
  rewrite <- (firstn_skipn (Z.to_nat (b - a)) (skipn (Z.to_nat a) l)) at 2.
  f_equal. rewrite skipn_skipn. f_equal. lia.
Qed.

Lemma Forall_firstn_skipn {A} (P : A -> Prop) n m : forall l : list A,
  Forall P l -> Forall P (firstn n (skipn m l)).
Proof.
  assert (Hf : forall k (l : list A), Forall P l -> Forall P (firstn k l)).
  { induction k as [|k IH]; intros l H; [constructor|].
    destruct H; cbn [firstn]; constructor; auto. }
  induction m as [|m IH]; intros l H; [now apply Hf|].
  destruct H; cbn [skipn]; [now apply Hf|now apply IH].
Qed.

Lemma slice_Forall {A} (P : A -> Prop) (l : list A) a b :
  Forall P l -> Forall P (Py.slice l a b).
Proof. intros H. unfold Py.slice. now apply Forall_firstn_skipn. Qed.

(** ** The text of the chunks *)

(** The text of a chunk is its own lines followed by the context, joined
    by newlines: the lines from the cursor to [context] lines after the
    end of the chunk, or to the end of the diff. *)
Lemma chunk_content_closed cfg lines cur e :
  0 <= cur < e -> e <= llen lines ->
  chunk_content_at cfg lines cur e
  = Py.join NL
      (Py.slice lines cur
         (Z.min (e + Z.max 0 (CONTEXT_LINES cfg)) (llen lines))).
Proof.
  intros Hcur He. unfold chunk_content_at.
  destruct (Z.ltb_spec e (llen lines)) as [Hlt|Hge];
    destruct (Z.gtb_spec (CONTEXT_LINES cfg) 0) as [Hctx|Hctx]; cbn [andb].
  - replace (Z.max 0 (CONTEXT_LINES cfg)) with (CONTEXT_LINES cfg) by lia.
    set (stop := Z.min (e + CONTEXT_LINES cfg) (llen lines)).
    assert (Hlen : llen (Py.slice lines e stop) = stop - e)
      by (apply slice_length; lia).
    assert (Hbody : llen (Py.slice lines cur e) = e - cur)
      by (apply slice_length; lia).
    rewrite <- (slice_app lines cur e stop) by lia.
    destruct (Py.slice lines e stop) as [|x next] eqn:Enext;
      [unfold llen in Hlen; cbn in Hlen; lia|].
    cbn [nonempty]. rewrite join_app; [reflexivity| |discriminate].
    intros E. rewrite E in Hbody. unfold llen in Hbody. cbn in Hbody. lia.
  - now replace (Z.min (e + Z.max 0 (CONTEXT_LINES cfg)) (llen lines)) with e
      by lia.
  - now replace (Z.min (e + Z.max 0 (CONTEXT_LINES cfg)) (llen lines)) with e
      by lia.
  - now replace (Z.min (e + Z.max 0 (CONTEXT_LINES cfg)) (llen lines)) with e
      by lia.
Qed.

(** Every chunk that the loop adds was built by one iteration, from the
    cursor [start_line - 1]. *)
Lemma chunk_loop_chunks cfg path lines fuel : forall cur num chunks r,
  chunk_loop fuel cfg path lines cur num chunks = Returns r ->
  exists new, r = chunks ++ new
    /\ Forall (fun chunk =>
         filepath chunk = path
         /\ chunk_end_at cfg lines (start_line chunk - 1) = Some (end_line chunk)
         /\ content chunk
            = chunk_content_at cfg lines (start_line chunk - 1) (end_line chunk))
       new.
Proof.
  induction fuel as [|fuel IH]; intros cur num chunks r Hrun;
    cbn [chunk_loop] in Hrun;
    destruct (cur <? llen lines);
    try discriminate;
    try (injection Hrun as <-; exists []; split;
         [now rewrite app_nil_r|constructor]).
  destruct (chunk_end_at cfg lines cur) as [e|] eqn:He; [|discriminate].
  apply IH in Hrun as (new & -> & Hall).
  eexists (_ :: new). rewrite <- app_assoc. split; [reflexivity|].
  constructor; [|assumption]. cbn [filepath start_line end_line content].
  replace (cur + 1 - 1) with cur by lia. repeat split. assumption.
Qed.

(** What a run of [_chunk_diff] with a positive chunk size returns: a
    chain of chunks over the lines of the diff, each built by one
    iteration of the loop. *)
Lemma chunk_diff_chunks cfg path d fuel :
  1 <= CHUNK_SIZE_LINES cfg ->
  let lines := Py.split Py.nl d in
  llen lines <= Z.of_nat fuel ->
  exists chunks,
    _chunk_diff fuel cfg path d = Returns chunks
    /\ chained 1 1 (llen lines) chunks
    /\ Forall (fun chunk =>
         filepath chunk = path
         /\ 1 <= start_line chunk <= end_line chunk
         /\ end_line chunk <= llen lines
         /\ end_line chunk - start_line chunk + 1 <= CHUNK_SIZE_LINES cfg
         /\ content chunk
            = Py.join NL
                (Py.slice lines (start_line chunk - 1)
                   (Z.min (end_line chunk + Z.max 0 (CONTEXT_LINES cfg))
                      (llen lines))))
       chunks.
Proof.
  intros Hsize lines Hfuel. unfold _chunk_diff. fold lines.
  pose proof (count_nonneg Py.nl d) as Hc.
  pose proof (split_length Py.nl d) as Hn. fold lines in Hn.
  destruct (chunk_loop_returns cfg path lines Hsize fuel 0 1 [])
    as (new & Hrun & Hch & _); [lia|lia|].
  rewrite Hrun. cbn [app] in *.
  apply chunk_loop_chunks in Hrun as (new' & Hnew & Hall).
  cbn [app] in Hnew. subst new'.
  exists (map (set_total_chunks (llen new)) new).
  split; [reflexivity|]. split; [now apply chained_set_total|].
  apply Forall_forall. intros c Hin.
  apply in_map_iff in Hin as (c0 & <- & Hin0).
  cbn [set_total_chunks filepath start_line end_line content].
  rewrite Forall_forall in Hall. destruct (Hall c0 Hin0) as (Hp & Hend & Hcont).
  apply In_nth_error in Hin0 as [k Hk].
  destruct (chained_nth _ _ _ _ _ _ Hch Hk) as (_ & Hr & Hle & _).
  destruct (chunk_end_at_cases cfg lines (start_line c0 - 1)) as (e & He & Hcases);
    [lia|].
  rewrite Hend in He. injection He as <-.
  repeat split; try assumption; try lia.
  rewrite Hcont. apply chunk_content_closed; lia.
Qed.

(** X1.  The text of every chunk that [_chunk_diff] returns is the lines
    of the diff from the chunk's [start_line] to [CONTEXT_LINES] lines
    after its [end_line] (to the last line of the diff when there are
    fewer), joined by newlines; a context that is not positive adds
    nothing, and the last chunk has no context.  Every chunk carries the
    path given. *)
Theorem chunk_text_with_context cfg path d fuel :
  1 <= CHUNK_SIZE_LINES cfg ->
  let lines := Py.split Py.nl d in
  llen lines <= Z.of_nat fuel ->
  exists chunks,
    _chunk_diff fuel cfg path d = Returns chunks
    /\ forall chunk, In chunk chunks ->
         filepath chunk = path
         /\ content chunk
            = Py.join NL
                (Py.slice lines (start_line chunk - 1)
                   (Z.min (end_line chunk + Z.max 0 (CONTEXT_LINES cfg))
                      (llen lines)))
         /\ (end_line chunk = llen lines ->
             content chunk
             = Py.join NL (Py.slice lines (start_line chunk - 1) (llen lines))).
Proof.
  intros Hsize lines Hfuel.
  destruct (chunk_diff_chunks cfg path d fuel Hsize Hfuel)
    as (chunks & Hrun & _ & Hall).
  exists chunks. split; [assumption|]. intros chunk Hin.
  rewrite Forall_forall in Hall.
  destruct (Hall chunk Hin) as (Hp & Hr & Hle & _ & Hcont).
  fold lines in Hcont. repeat split; try assumption.
  intros Hlast. rewrite Hcont. do 2 f_equal. lia.
Qed.

Lemma chunk_text_with_context_witness :
  1 <= CHUNK_SIZE_LINES chunks_of_two
  /\ llen (Py.split Py.nl five_lines) <= Z.of_nat 5
  /\ exists chunks,
       _chunk_diff 5 chunks_of_two "f.py" five_lines = Returns chunks
       /\ map content chunks
          = [Py.join NL ["a"; "b"; "c"]; Py.join NL ["c"; ""; "e"]; "e"].
Proof.
  assert (H1 : 1 <= CHUNK_SIZE_LINES chunks_of_two) by (cbn; lia).
  assert (H2 : llen (Py.split Py.nl five_lines) <= Z.of_nat 5)
    by (vm_compute; discriminate).
  split; [exact H1|]. split; [exact H2|].
  destruct (chunk_text_with_context chunks_of_two "f.py" five_lines 5 H1 H2)
    as (chunks & Hrun & _).
  exists chunks. split; [exact Hrun|].
  revert Hrun. vm_compute. intros Hrun. injection Hrun as <-. reflexivity.
Defined.

(** X2.  No chunk of [_chunk_diff] spans more than [CHUNK_SIZE_LINES]
    lines, and its text, context included, has at most
    [CHUNK_SIZE_LINES + CONTEXT_LINES] lines (the context counting for
    nothing when it is not positive). *)
Theorem chunk_size_budget cfg path d fuel :
  1 <= CHUNK_SIZE_LINES cfg ->
  llen (Py.split Py.nl d) <= Z.of_nat fuel ->
  exists chunks,
    _chunk_diff fuel cfg path d = Returns chunks
    /\ forall chunk, In chunk chunks ->
         1 <= end_line chunk - start_line chunk + 1 <= CHUNK_SIZE_LINES cfg
         /\ end_line chunk - start_line chunk + 1
            <= llen (Py.split Py.nl (content chunk))
            <= CHUNK_SIZE_LINES cfg + Z.max 0 (CONTEXT_LINES cfg).
Proof.
  intros Hsize Hfuel.
  destruct (chunk_diff_chunks cfg path d fuel Hsize Hfuel)
    as (chunks & Hrun & _ & Hall).
  exists chunks. split; [assumption|]. intros chunk Hin.
  rewrite Forall_forall in Hall.
  destruct (Hall chunk Hin) as (_ & Hr & Hle & Hspan & Hcont).
  split; [lia|]. rewrite Hcont.
  set (lines := Py.split Py.nl d) in *.
  set (stop := Z.min (end_line chunk + Z.max 0 (CONTEXT_LINES cfg)) (llen lines)).
  assert (Hlen : llen (Py.slice lines (start_line chunk - 1) stop)
                 = stop - (start_line chunk - 1))
    by (apply slice_length; lia).
  rewrite split_join.
  - lia.
  - intros E. rewrite E in Hlen. unfold llen in Hlen. cbn in Hlen. lia.
  - apply slice_Forall, split_pieces.
Qed.

Lemma chunk_size_budget_witness :
  1 <= CHUNK_SIZE_LINES chunks_of_two
  /\ llen (Py.split Py.nl five_lines) <= Z.of_nat 5
  /\ exists chunks,
       _chunk_diff 5 chunks_of_two "f.py" five_lines = Returns chunks
       /\ forall chunk, In chunk chunks ->
            llen (Py.split Py.nl (content chunk)) <= 3.
Proof.
  assert (H1 : 1 <= CHUNK_SIZE_LINES chunks_of_two) by (cbn; lia).
  assert (H2 : llen (Py.split Py.nl five_lines) <= Z.of_nat 5)
    by (vm_compute; discriminate).
  split; [exact H1|]. split; [exact H2|].
  destruct (chunk_size_budget chunks_of_two "f.py" five_lines 5 H1 H2)
    as (chunks & Hrun & Hall).
  exists chunks. split; [exact Hrun|].
  intros chunk Hin. destruct (Hall chunk Hin) as (_ & _ & H). exact H.
Defined.

Lemma join_concat sep : forall ls : list (list string),
  Forall (fun l => l <> []) ls ->
  Py.join sep (map (Py.join sep) ls) = Py.join sep (List.concat ls).
Proof.
  induction ls as [|l ls IH]; intros H; [reflexivity|].
  inversion H as [|? ? Hl Hls]; subst.
  destruct ls as [|l' ls].
  - cbn. now rewrite app_nil_r.
  - change (map (Py.join sep) (l :: l' :: ls))
      with (Py.join sep l :: map (Py.join sep) (l' :: ls)).
    change (List.concat (l :: l' :: ls)) with (l ++ List.concat (l' :: ls)).
    rewrite join_cons by discriminate. rewrite IH by assumption.
    rewrite join_app; [reflexivity|assumption|].
    inversion Hls; subst. cbn [List.concat].
    destruct l'; [congruence|discriminate].
Qed.

(** The own lines of the chunks of a chain, put end to end, are the
    lines from the first line of the chain on. *)
Lemma chained_slices (lines : list string) : forall chunks first num,
  chained first num (llen lines) chunks -> 1 <= first ->
  List.concat
    (map (fun chunk => Py.slice lines (start_line chunk - 1) (end_line chunk))
       chunks)
  = skipn (Z.to_nat (first - 1)) lines.
Proof.
  induction chunks as [|c cs IH]; intros first num H Hfirst.
  - cbn [chained] in H. cbn. symmetry. apply skipn_all2. unfold llen in H. lia.
  - cbn [chained] in H. destruct H as (H1 & H2 & H3 & H4).
    cbn [map List.concat]. rewrite (IH _ _ H4) by lia.
    replace (end_line c + 1 - 1) with (end_line c) by lia.
    rewrite slice_to_end by lia. now rewrite H1.
Qed.

(** X3.  With no context lines, joining the texts of the chunks of
    [_chunk_diff] by newlines gives the diff back: nothing is lost and
    nothing is repeated. *)
Theorem chunks_reassemble cfg path d fuel :
  1 <= CHUNK_SIZE_LINES cfg -> CONTEXT_LINES cfg <= 0 ->
  llen (Py.split Py.nl d) <= Z.of_nat fuel ->
  exists chunks,
    _chunk_diff fuel cfg path d = Returns chunks
    /\ Py.join NL (map content chunks) = d.
Proof.
  intros Hsize Hctx Hfuel.
  destruct (chunk_diff_chunks cfg path d fuel Hsize Hfuel)
    as (chunks & Hrun & Hch & Hall).
  exists chunks. split; [assumption|].
  set (lines := Py.split Py.nl d) in *.
  assert (Hmap : map content chunks
    = map (Py.join NL)
        (map (fun chunk => Py.slice lines (start_line chunk - 1) (end_line chunk))
           chunks)).
  { rewrite map_map. apply map_ext_in. intros c Hin.
    rewrite Forall_forall in Hall.
    destruct (Hall c Hin) as (_ & Hr & Hle & _ & ->). do 2 f_equal. lia. }
  rewrite Hmap, join_concat.
  - rewrite (chained_slices lines chunks 1 1 Hch) by lia. cbn [skipn Z.to_nat].
    apply join_split.
  - apply Forall_forall. intros l Hin.
    apply in_map_iff in Hin as (c & <- & Hin).
    rewrite Forall_forall in Hall. destruct (Hall c Hin) as (_ & Hr & Hle & _).
    intros E.
    pose proof (slice_length lines (start_line c - 1) (end_line c)) as Hlen.
    rewrite E in Hlen. unfold llen at 2 in Hlen. cbn in Hlen. lia.
Qed.

Lemma chunks_reassemble_witness :
  1 <= CHUNK_SIZE_LINES chunks_of_two_no_context
  /\ CONTEXT_LINES chunks_of_two_no_context <= 0
  /\ llen (Py.split Py.nl five_lines) <= Z.of_nat 5
  /\ exists chunks,
       _chunk_diff 5 chunks_of_two_no_context "f.py" five_lines = Returns chunks
       /\ Py.join NL (map content chunks) = five_lines.
Proof.
  assert (H1 : 1 <= CHUNK_SIZE_LINES chunks_of_two_no_context) by (cbn; lia).
  assert (H2 : CONTEXT_LINES chunks_of_two_no_context <= 0) by (cbn; lia).
  assert (H3 : llen (Py.split Py.nl five_lines) <= Z.of_nat 5)
    by (vm_compute; discriminate).
  repeat (split; [assumption|]).
  exact (chunks_reassemble chunks_of_two_no_context "f.py" five_lines 5 H1 H2 H3).
Defined.

(** ** Strings: prefixes, suffixes and infixes *)

Lemma bool_eq_iff (a b : bool) : (a = true <-> b = true) -> a = b.
Proof. destruct a, b; intuition congruence. Qed.

Lemma startswith_spec p : forall s,
  Py.startswith s p = true <-> exists r, s = (p ++ r)%string.
Proof.
  induction p as [|a p IH]; intros s.
  - rewrite startswith_empty. split; [now exists s|reflexivity].
  - destruct s as [|b s]; cbn [Py.startswith].
    + split; [discriminate|]. now intros [r Hr].
    + rewrite andb_true_iff, IH. split.
      * intros [Hab [r ->]]. apply Ascii.eqb_eq in Hab as ->. now exists r.
      * intros [r Hr]. cbn in Hr. injection Hr as -> ->.
        split; [apply Ascii.eqb_refl|now exists r].
Qed.

Lemma contains_spec p : forall s,
  Py.contains p s = true <-> exists a b, s = (a ++ p ++ b)%string.
Proof.
  induction s as [|c s IH]; cbn [Py.contains];
    rewrite orb_true_iff, startswith_spec.
  - split.
    + intros [[r Hr]|H]; [|discriminate]. now exists "", r.
    + intros (a & b & H). left. destruct a; [now exists b|discriminate].
  - rewrite IH. split.
    + intros [[r Hr]|(a & b & ->)]; [now exists "", r|].
      now exists (String c a), b.
    + intros (a & b & H). destruct a as [|x a].
      * left. now exists b.
      * right. cbn in H. injection H as -> ->. now exists a, b.
Qed.

Lemma rev_string_app a b :
  Py.rev_string (a ++ b) = (Py.rev_string b ++ Py.rev_string a)%string.
Proof.
  induction a as [|x a IH]; cbn [String.append Py.rev_string].
  - now rewrite append_empty_r.
  - now rewrite IH, append_assoc.
Qed.

Lemma rev_string_involutive s : Py.rev_string (Py.rev_string s) = s.
Proof.
  induction s as [|x s IH]; [reflexivity|].
  cbn [Py.rev_string]. rewrite rev_string_app, IH. reflexivity.
Qed.

Lemma endswith_spec s p :
  Py.endswith s p = true <-> exists a, s = (a ++ p)%string.
Proof.
  unfold Py.endswith. rewrite startswith_spec. split.
  - intros [r Hr]. exists (Py.rev_string r).
    rewrite <- (rev_string_involutive s), Hr, rev_string_app.
    now rewrite rev_string_involutive.
  - intros [a ->]. exists (Py.rev_string a). apply rev_string_app.
Qed.

Lemma count_app c a b : Py.count c (a ++ b) = Py.count c a + Py.count c b.
Proof.
  induction a as [|x a IH]; cbn [String.append Py.count]; [lia|].
  rewrite IH. lia.
Qed.

Lemma count_zero_app c a b :
  Py.count c (a ++ b) = 0 <-> Py.count c a = 0 /\ Py.count c b = 0.
Proof.
  rewrite count_app. pose proof (count_nonneg c a). pose proof (count_nonneg c b).
  lia.
Qed.

(** ** Regular expressions *)

Lemma eat_exact l : forall s r, eat false l s = Some r <-> s = (l ++ r)%string.
Proof.
  induction l as [|a l IH]; intros s r; cbn [eat String.append].
  - split; [now intros [= ->]|now intros ->].
  - destruct s as [|b s]; [split; discriminate|].
    unfold char_eq. destruct (Ascii.eqb_spec a b) as [->|Hne].
    + rewrite IH. split; [now intros ->|now intros [= ->]].
    + split; [discriminate|]. intros [= -> _]. congruence.
Qed.

(** [.*] takes a prefix without a newline. *)
Lemma dotstar_spec k : forall s,
  dotstar k s = true <->
  exists pre post, s = (pre ++ post)%string
                   /\ Py.count Py.nl pre = 0 /\ k post = true.
Proof.
  induction s as [|c s IH]; cbn [dotstar]; rewrite orb_true_iff.
  - split.
    + intros [H|H]; [|discriminate]. now exists "", "".
    + intros (pre & post & H & _ & Hk). left.
      destruct pre; [|discriminate]. cbn in H. now subst.
  - split.
    + intros [H|H]; [now exists "", (String c s)|].
      destruct (Ascii.eqb c Py.nl) eqn:E; [discriminate|].
      apply IH in H as (pre & post & -> & Hpre & Hk).
      exists (String c pre), post. cbn [String.append Py.count].
      rewrite E. repeat split; [lia|assumption].
    + intros (pre & post & H & Hpre & Hk). destruct pre as [|x pre].
      * left. cbn in H. now subst.
      * right. cbn in H. injection H as -> ->. cbn [Py.count] in Hpre.
        pose proof (count_nonneg Py.nl pre).
        destruct (Ascii.eqb x Py.nl); [lia|].
        apply IH. exists pre, post. repeat split; [lia|assumption].
Qed.

Lemma at_eol_no_newline r :
  Py.count Py.nl r = 0 -> (at_eol r = true <-> r = "").
Proof.
  intros H. destruct r as [|c r]; [tauto|].
  cbn [Py.count] in H. pose proof (count_nonneg Py.nl r).
  split; [|discriminate]. cbn [at_eol].
  destruct r; [|discriminate]. destruct (Ascii.eqb c Py.nl); [lia|discriminate].
Qed.

(** On a text without a newline, what the four shapes of pattern of
    [Config] say in terms of the text. *)
Section PlainPatterns.

Variable P : string.
Hypothesis P_one_line : Py.count Py.nl P = 0.

Lemma suffix_pattern l :
  match_ (compile [DotStar; Lit l; Eol] false) P = Py.endswith P l.
Proof.
  apply bool_eq_iff. unfold match_. cbn [items IGNORECASE match_items].
  rewrite dotstar_spec, endswith_spec. split.
  - intros (pre & post & HP & _ & Hk).
    destruct (eat false l post) as [r|] eqn:E; [|discriminate].
    apply eat_exact in E as ->. rewrite andb_true_r in Hk.
    assert (Hr : Py.count Py.nl r = 0).
    { rewrite HP in P_one_line.
      now apply count_zero_app in P_one_line as [_ [_ H]%count_zero_app]. }
    apply at_eol_no_newline in Hk as ->; [|assumption].
    exists pre. now rewrite append_empty_r in HP.
  - intros [a HP]. exists a, l. split; [assumption|]. split.
    + rewrite HP in P_one_line. now apply count_zero_app in P_one_line.
    + assert (E : eat false l l = Some "")
        by (apply eat_exact; now rewrite append_empty_r).
      now rewrite E.
Qed.

Lemma suffix_alt_pattern l alts :
  match_ (compile [DotStar; Lit l; Alt alts; Eol] false) P
  = existsb (fun a => Py.endswith P (l ++ a)) alts.
Proof.
  apply bool_eq_iff. unfold match_. cbn [items IGNORECASE match_items].
  rewrite dotstar_spec, existsb_exists. split.
  - intros (pre & post & HP & _ & Hk).
    destruct (eat false l post) as [r|] eqn:E; [|discriminate].
    apply eat_exact in E as ->.
    apply existsb_exists in Hk as (a & Ha & Hk). exists a. split; [assumption|].
    destruct (eat false a r) as [r'|] eqn:E; [|discriminate].
    apply eat_exact in E as ->. rewrite andb_true_r in Hk.
    assert (Hr : Py.count Py.nl r' = 0).
    { rewrite HP in P_one_line.
      apply count_zero_app in P_one_line as [_ [_ H]%count_zero_app].
      now apply count_zero_app in H. }
    apply at_eol_no_newline in Hk as ->; [|assumption].
    apply endswith_spec. exists pre. now rewrite append_empty_r in HP.
  - intros (a & Ha & He). apply endswith_spec in He as [pre HP].
    exists pre, (l ++ a)%string. split; [assumption|]. split.
    + rewrite HP in P_one_line. now apply count_zero_app in P_one_line.
    + assert (E : eat false l (l ++ a) = Some a) by now apply eat_exact.
      rewrite E. apply existsb_exists. exists a. split; [assumption|].
      assert (E' : eat false a a = Some "")
        by (apply eat_exact; now rewrite append_empty_r).
      now rewrite E'.
Qed.

Lemma whole_pattern l :
  match_ (compile [Lit l; Eol] false) P = String.eqb P l.
Proof.
  apply bool_eq_iff. unfold match_. cbn [items IGNORECASE match_items].
  rewrite String.eqb_eq. split.
  - intros Hk. destruct (eat false l P) as [r|] eqn:E; [|discriminate].
    apply eat_exact in E. rewrite andb_true_r in Hk.
    assert (Hr : Py.count Py.nl r = 0).
    { rewrite E in P_one_line. now apply count_zero_app in P_one_line. }
    apply at_eol_no_newline in Hk as ->; [|assumption].
    now rewrite append_empty_r in E.
  - intros ->.
    assert (E : eat false l l = Some "")
      by (apply eat_exact; now rewrite append_empty_r).
    now rewrite E.
Qed.

Lemma infix_pattern l :
  match_ (compile [DotStar; Lit l; DotStar] false) P = Py.contains l P.
Proof.
  apply bool_eq_iff. unfold match_. cbn [items IGNORECASE match_items].
  rewrite dotstar_spec, contains_spec. split.
  - intros (pre & post & HP & _ & Hk).
    destruct (eat false l post) as [r|] eqn:E; [|discriminate].
    apply eat_exact in E as ->. now exists pre, r.
  - intros (a & b & HP). exists a, (l ++ b)%string. split; [assumption|]. split.
    + rewrite HP in P_one_line. now apply count_zero_app in P_one_line.
    + assert (E : eat false l (l ++ b) = Some b) by now apply eat_exact.
      rewrite E. now apply dotstar_here.
Qed.

End PlainPatterns.

(** ** The skip patterns in plain terms *)

Lemma whole_path_ends P l suffix :
  Py.endswith l suffix = true ->
  String.eqb P l = true -> Py.endswith P suffix = true.
Proof. intros H E. apply String.eqb_eq in E. now subst. Qed.

(** X4.  For a path without a newline, [should_skip_file] holds exactly
    when the path ends with one of the endings of [SKIP_SUFFIXES], or is
    [package-lock.json] itself, or contains one of the fragments of
    [SKIP_FRAGMENTS]. *)
Theorem should_skip_file_plain P :
  Py.count Py.nl P = 0 -> should_skip_file P = skip_plain P.
Proof.
  intros H. unfold should_skip_file, SKIP_PATTERNS. cbn [existsb].
  rewrite !(suffix_pattern P H), !(suffix_alt_pattern P H),
    !(whole_pattern P H), !(infix_pattern P H).
  unfold skip_plain, Py.endswith_any, SKIP_SUFFIXES, SKIP_FRAGMENTS.
  cbn [existsb String.append]. rewrite !orb_false_r.
  pose proof (whole_path_ends P "yarn.lock" ".lock" eq_refl) as H1.
  pose proof (whole_path_ends P "poetry.lock" ".lock" eq_refl) as H2.
  pose proof (whole_path_ends P "Pipfile.lock" ".lock" eq_refl) as H3.
  pose proof (whole_path_ends P "composer.lock" ".lock" eq_refl) as H4.
  pose proof (whole_path_ends P "Gemfile.lock" ".lock" eq_refl) as H5.
  pose proof (whole_path_ends P "Cargo.lock" ".lock" eq_refl) as H6.
  apply bool_eq_iff. rewrite !orb_true_iff. tauto.
Qed.

Lemma should_skip_file_plain_witness :
  Py.count Py.nl "docs/site/build/index.html" = 0
  /\ should_skip_file "docs/site/build/index.html" = true.
Proof.
  split; [reflexivity|].
  rewrite (should_skip_file_plain "docs/site/build/index.html" eq_refl).
  reflexivity.
Defined.

(** X5.  For a path without a newline, [should_note_only] holds exactly
    when the path ends with [.csv], [.tsv], [.json.gz] or [.parquet]. *)
Theorem should_note_only_plain P :
  Py.count Py.nl P = 0 ->
  should_note_only P = Py.endswith_any P NOTE_ONLY_SUFFIXES.
Proof.
  intros H. unfold should_note_only, NOTE_ONLY_PATTERNS. cbn [existsb].
  now rewrite !(suffix_pattern P H).
Qed.

Lemma should_note_only_plain_witness :
  Py.count Py.nl "data/export.parquet" = 0
  /\ should_note_only "data/export.parquet" = true.
Proof.
  split; [reflexivity|].
  rewrite (should_note_only_plain "data/export.parquet" eq_refl). reflexivity.
Defined.

(** X6.  A path that the note-only pattern for [.json.gz] matches is
    matched by the skip pattern for archives too, and skipping comes
    first: the path is skipped and no record is ever built for it, so
    this note-only pattern never takes effect. *)
Theorem json_gz_is_skipped P :
  match_ (compile [DotStar; Lit ".json.gz"; Eol] false) P = true ->
  should_skip_file P = true
  /\ forall cfg self file_changes ff,
       In ff (fst (filter_files cfg self file_changes)) ->
       path_of (file_change ff) <> P.
Proof.
  intros Hm.
  assert (Hskip : should_skip_file P = true).
  { unfold match_ in Hm. cbn [items IGNORECASE match_items] in Hm.
    apply dotstar_spec in Hm as (pre & post & -> & Hpre & Hk).
    destruct (eat false ".json.gz" post) as [r|] eqn:E; [|discriminate].
    apply eat_exact in E as ->. rewrite andb_true_r in Hk.
    apply existsb_exists.
    exists (compile [DotStar; Lit ".";
                     Alt ["pdf"; "zip"; "tar"; "gz"; "bz2"; "xz"]; Eol] false).
    split; [unfold SKIP_PATTERNS; cbn [In]; tauto|].
    unfold match_. cbn [items IGNORECASE match_items].
    apply dotstar_spec. exists (pre ++ ".json")%string, (".gz" ++ r)%string.
    split; [now rewrite append_assoc|]. split.
    - rewrite count_app, Hpre. reflexivity.
    - cbn. now rewrite Hk. }
  split; [exact Hskip|].
  intros cfg self fcs ff Hin Hp. rewrite filter_files_spec in Hin.
  cbn [fst] in Hin. unfold classifications in Hin.
  apply in_map_iff in Hin as (fc & <- & Hfc).
  apply filter_In in Hfc as [_ Hns]. cbn [analyse file_change] in Hp.
  rewrite Hp, Hskip in Hns. discriminate.
Qed.

Lemma json_gz_is_skipped_witness :
  match_ (compile [DotStar; Lit ".json.gz"; Eol] false) "data/dump.json.gz"
  = true
  /\ should_skip_file "data/dump.json.gz" = true.
Proof.
  split; [reflexivity|].
  exact (proj1 (json_gz_is_skipped "data/dump.json.gz" eq_refl)).
Defined.

(** ** The critical patterns in plain terms *)

Lemma lower_app a b : Py.lower (a ++ b) = (Py.lower a ++ Py.lower b)%string.
Proof. induction a as [|x a IH]; cbn; [reflexivity|now rewrite IH]. Qed.

Lemma eat_ignorecase_inv k : forall s r,
  eat true k s = Some r -> Py.startswith (Py.lower s) (Py.lower k) = true.
Proof.
  induction k as [|a k IH]; intros s r H; [apply startswith_empty|].
  destruct s as [|b s]; [discriminate|]. cbn [eat] in H. unfold char_eq in H.
  destruct (Ascii.eqb (Py.lower_char a) (Py.lower_char b)) eqn:E;
    [|discriminate].
  cbn [Py.lower Py.startswith]. rewrite E. cbn [andb]. eapply IH, H.
Qed.

Lemma critical_pattern_inv k P :
  match_ (critical_pattern k) P = true ->
  Py.contains (Py.lower k) (Py.lower P) = true.
Proof.
  unfold match_, critical_pattern. cbn [items IGNORECASE match_items].
  intros H. apply dotstar_spec in H as (pre & post & -> & _ & Hk).
  destruct (eat true k post) as [r|] eqn:E; [|discriminate].
  apply eat_ignorecase_inv, startswith_spec in E as [t Ht].
  apply contains_spec. exists (Py.lower pre), t. now rewrite lower_app, Ht.
Qed.

(** X7.  For a path of ASCII characters without a newline,
    [is_critical_path] holds exactly when the lower-case form of the
    path contains one of the critical keywords; so the priority is
    critical in that case, else low when the lower-case path contains
    [test] or [spec], else normal.  (Beyond ASCII the two sides part:
    [re.IGNORECASE] also takes the dotless i for an [i] and the long s
    for an [s], which [str.lower] leaves as they are.) *)
Theorem is_critical_path_plain P :
  isascii P = true ->
  Py.count Py.nl P = 0 ->
  is_critical_path P = critical_plain P
  /\ get_file_priority P
     = if critical_plain P then "critical"
       else if Py.contains "test" (Py.lower P)
               || Py.contains "spec" (Py.lower P) then "low"
       else "normal".
Proof.
  intros _ H.
  assert (Hc : is_critical_path P = critical_plain P).
  { apply bool_eq_iff. rewrite is_critical_path_iff.
    unfold critical_plain, matches_critical. rewrite existsb_exists.
    assert (Hlow : forall k, In k CRITICAL_KEYWORDS -> Py.lower k = k).
    { intros k Hk. cbn in Hk.
      repeat (destruct Hk as [<-|Hk]; [reflexivity|]). contradiction. }
    assert (Hnl : Py.contains NL P = false).
    { destruct (Py.contains NL P) eqn:E; [|reflexivity].
      apply contains_spec in E as (a & b & ->).
      apply count_zero_app in H as [_ H]. unfold NL in H.
      cbn [String.append Py.count] in H. rewrite Ascii.eqb_refl in H.
      pose proof (count_nonneg Py.nl b). lia. }
    split; intros (k & Hk & Hm); exists k; (split; [assumption|]).
    - apply critical_pattern_inv in Hm. now rewrite (Hlow k Hk) in Hm.
    - apply critical_pattern_contains; [assumption|]. now rewrite (Hlow k Hk). }
  split; [exact Hc|]. unfold get_file_priority. now rewrite Hc.
Qed.

Lemma is_critical_path_plain_witness :
  isascii "src/Middleware/Cache.py" = true
  /\ Py.count Py.nl "src/Middleware/Cache.py" = 0
  /\ get_file_priority "src/Middleware/Cache.py" = "critical".
Proof.
  split; [reflexivity|]. split; [reflexivity|].
  rewrite (proj2 (is_critical_path_plain "src/Middleware/Cache.py"
                    eq_refl eq_refl)).
  reflexivity.
Defined.

(** ** [main.py]: counting the files *)

(** X8.  After [filter_files] on a new instance, every input file is
    counted once: as a file to review, as an entry of the log (skipped
    or note-only), or as a deleted file that no pattern matches.  So
    the files to review and the files skipped add up to the number of
    changes only when there is no such deleted file. *)
Theorem files_accounted cfg file_changes :
  let '(filtered_files, filter_obj) :=
    filter_files cfg FileFilter_init file_changes in
  llen file_changes
  = llen (review_files filtered_files) + skipped_count filter_obj
    + llen (plain_deleted file_changes).
Proof.
  rewrite filter_files_spec.
  unfold skipped_count, get_skipped_files, FileFilter_init.
  cbn [skipped_files app]. unfold llen, review_files, plain_deleted.
  induction file_changes as [|fc rest IH]; [reflexivity|].
  unfold classifications, log_entries in *. cbn [filter flat_map map].
  unfold log_entry at 1.
  destruct (should_skip_file (path_of fc)); cbn [negb andb].
  - cbn [app List.length]. lia.
  - cbn [map filter should_review analyse].
    destruct (should_note_only (path_of fc)); cbn [negb andb].
    + cbn [app List.length]. lia.
    + destruct (String.eqb (status fc) "deleted"); cbn [negb app List.length];
        lia.
Qed.

(** ** [main.py]: collecting the chunks *)

(** With a positive chunk size and enough fuel, [process_file] returns
    at least one chunk, and every chunk carries the path of the file
    and the number of chunks. *)
Lemma process_file_returns cfg ff fuel :
  1 <= CHUNK_SIZE_LINES cfg ->
  llen (Py.split Py.nl (diff (file_change ff))) <= Z.of_nat fuel ->
  exists chunks,
    process_file fuel cfg ff = Returns chunks
    /\ chunks <> []
    /\ Forall (fun chunk => filepath chunk = path_of (file_change ff)
                            /\ total_chunks chunk = llen chunks) chunks.
Proof.
  intros Hsize Hfuel. unfold process_file.
  destruct (should_chunk ff); cbn [negb].
  - destruct (chunk_diff_returns cfg (path_of (file_change ff))
                (diff (file_change ff)) fuel Hsize Hfuel)
      as (chunks & Hrun & Hne & _ & Htot).
    destruct (chunk_diff_chunks cfg (path_of (file_change ff))
                (diff (file_change ff)) fuel Hsize Hfuel)
      as (chunks' & Hrun' & _ & Hall).
    rewrite Hrun in Hrun'. injection Hrun' as <-.
    exists chunks. split; [assumption|]. split; [assumption|].
    rewrite Forall_forall in *. intros c Hin. split; [apply Hall|apply Htot];
      assumption.
  - eexists. split; [reflexivity|]. split; [discriminate|].
    repeat constructor.
Qed.

Lemma process_loop_returns cfg fuel :
  1 <= CHUNK_SIZE_LINES cfg ->
  forall filtered_files all_chunks chunk_count,
  fuel_for fuel filtered_files ->
  exists per_file,
    Forall2 (fun ff chunks =>
               process_file fuel cfg ff = Returns chunks /\ chunks <> [])
      (review_files filtered_files) per_file
    /\ process_loop fuel cfg filtered_files all_chunks chunk_count
       = Returns
           (all_chunks ++ List.concat per_file,
            chunk_count
            + llen (List.concat (filter (fun chunks => llen chunks >? 1)
                                   per_file))).
Proof.
  intros Hsize. induction filtered_files as [|ff rest IH];
    intros all_chunks chunk_count Hfuel.
  - exists []. split; [constructor|]. cbn. rewrite app_nil_r.
    f_equal. f_equal. unfold llen. cbn. lia.
  - inversion Hfuel as [|? ? Hff Hrest]; subst.
    cbn [process_loop review_files filter]. fold (review_files rest).
    destruct (should_review ff).
    + destruct (process_file_returns cfg ff fuel Hsize Hff)
        as (chunks & Hrun & Hne & _).
      rewrite Hrun.
      destruct (IH (all_chunks ++ chunks)
                  (if llen chunks >? 1 then chunk_count + llen chunks
                   else chunk_count) Hrest) as (per_file & Hall & Hloop).
      exists (chunks :: per_file). split; [constructor; tauto|].
      rewrite Hloop. cbn [List.concat filter]. rewrite <- app_assoc.
      f_equal. f_equal.
      destruct (llen chunks >? 1); cbn [List.concat]; [|reflexivity].
      unfold llen. rewrite length_app. lia.
    + destruct (IH all_chunks chunk_count Hrest) as (per_file & Hall & Hloop).
      now exists per_file.
Qed.

Lemma concat_length_bounds (per_file : list (list DiffChunk)) :
  Forall (fun chunks => chunks <> []) per_file ->
  let counted :=
    llen (List.concat (filter (fun chunks => llen chunks >? 1) per_file)) in
  llen per_file <= llen (List.concat per_file)
  /\ 0 <= counted <= llen (List.concat per_file)
  /\ counted <> 1
  /\ llen (List.concat per_file) - counted
     = llen (filter (fun chunks => negb (llen chunks >? 1)) per_file).
Proof.
  unfold llen. induction per_file as [|chunks rest IH]; intros H.
  - cbn. lia.
  - inversion H as [|? ? Hne Hrest]; subst. specialize (IH Hrest).
    cbn [List.concat filter]. rewrite length_app.
    destruct chunks as [|c chunks]; [congruence|].
    destruct (Z.gtb_spec (Z.of_nat (List.length (c :: chunks))) 1) as [Hgt|Hle];
      cbn [negb List.concat]; rewrite ?length_app;
      cbn [List.length] in *; lia.
Qed.

(** X9.  With a positive chunk size and enough fuel, the loop of [main]
    returns.  [all_chunks] is, in the order of the files, the chunks of
    the files to review and of no other file; each of them gives at
    least one chunk.  [chunk_count] is the number of chunks of the files
    that gave more than one, so it is never 1, and the files that gave
    a single chunk account for the rest of [all_chunks]. *)
Theorem all_chunks_in_file_order cfg fuel filtered_files :
  1 <= CHUNK_SIZE_LINES cfg ->
  fuel_for fuel filtered_files ->
  exists per_file all_chunks chunk_count,
    process_loop fuel cfg filtered_files [] 0
    = Returns (all_chunks, chunk_count)
    /\ all_chunks = List.concat per_file
    /\ Forall2 (fun ff chunks =>
                  process_file fuel cfg ff = Returns chunks /\ chunks <> [])
         (review_files filtered_files) per_file
    /\ llen (review_files filtered_files) <= llen all_chunks
    /\ 0 <= chunk_count <= llen all_chunks
    /\ chunk_count <> 1
    /\ llen all_chunks - chunk_count
       = llen (filter (fun chunks => negb (llen chunks >? 1)) per_file).
Proof.
  intros Hsize Hfuel.
  destruct (process_loop_returns cfg fuel Hsize filtered_files [] 0 Hfuel)
    as (per_file & Hall & Hloop).
  exists per_file, (List.concat per_file),
    (llen (List.concat (filter (fun chunks => llen chunks >? 1) per_file))).
  split; [exact Hloop|]. split; [reflexivity|]. split; [exact Hall|].
  assert (Hne : Forall (fun chunks : list DiffChunk => chunks <> []) per_file).
  { clear Hloop. induction Hall; constructor; tauto. }
  assert (Hlen : llen (review_files filtered_files) = llen per_file).
  { unfold llen. f_equal. clear Hloop Hne. induction Hall; cbn; congruence. }
  rewrite Hlen. apply (concat_length_bounds per_file Hne).
Qed.

Lemma all_chunks_in_file_order_witness :
  1 <= CHUNK_SIZE_LINES default_config
  /\ fuel_for 1 (fst (filter_files default_config FileFilter_init sample_changes))
  /\ exists all_chunks chunk_count,
       process_loop 1 default_config
         (fst (filter_files default_config FileFilter_init sample_changes)) [] 0
       = Returns (all_chunks, chunk_count)
       /\ llen (review_files
                  (fst (filter_files default_config FileFilter_init
                          sample_changes)))
          <= llen all_chunks.
Proof.
  assert (H1 : 1 <= CHUNK_SIZE_LINES default_config) by (cbn; lia).
  assert (H2 : fuel_for 1 (fst (filter_files default_config FileFilter_init
                                  sample_changes))).
  { rewrite filter_files_spec. unfold fuel_for. cbn [fst].
    apply Forall_forall. intros ff Hin. unfold classifications in Hin.
    apply in_map_iff in Hin as (fc & <- & Hfc). apply filter_In in Hfc as [Hfc _].
    cbn [analyse file_change]. cbn in Hfc.
    destruct Hfc as [<-|[<-|[<-|[<-|[<-|[]]]]]]; vm_compute; discriminate. }
  split; [exact H1|]. split; [exact H2|].
  destruct (all_chunks_in_file_order default_config 1 _ H1 H2)
    as (per_file & all_chunks & chunk_count & Hrun & _ & _ & Hlen & _).
  now exists all_chunks, chunk_count.
Defined.

(** ** Small files *)

Lemma Qgtb_size_kb n m :
  Qgtb (Qmake n 1024) (inject_Z m) = (n >? 1024 * m).
Proof.
  unfold Qgtb, Qle_bool, inject_Z. cbn [Qnum Qden].
  rewrite Z.gtb_ltb, Z.ltb_antisym. f_equal. f_equal; lia.
Qed.

(** X10.  A classified file is chunked exactly when its diff has more
    newlines than [CHUNK_SIZE_LINES] or more bytes than
    [1024 * MAX_FILE_SIZE_KB].  Otherwise [process_file] returns, whatever
    the fuel, one chunk: the whole diff, from line 1 to [line_count],
    with [total_chunks] 1. *)
Theorem small_file_one_chunk cfg fc fuel :
  (should_chunk (analyse cfg fc) = false <->
   Py.count Py.nl (diff fc) <= CHUNK_SIZE_LINES cfg
   /\ Py.len (diff fc) <= 1024 * MAX_FILE_SIZE_KB cfg)
  /\ (should_chunk (analyse cfg fc) = false ->
      process_file fuel cfg (analyse cfg fc)
      = Returns [ {| filepath := path_of fc;
                     chunk_number := 1;
                     content := diff fc;
                     start_line := 1;
                     end_line := Py.count Py.nl (diff fc);
                     total_chunks := 1 |} ])
  /\ (should_chunk (analyse cfg fc) = true ->
      process_file fuel cfg (analyse cfg fc)
      = _chunk_diff fuel cfg (path_of fc) (diff fc)).
Proof.
  split; [|split].
  - cbn [analyse should_chunk]. rewrite Qgtb_size_kb, orb_false_iff.
    rewrite !Z.gtb_ltb, !Z.ltb_ge. reflexivity.
  - intros H. unfold process_file. now rewrite H.
  - intros H. unfold process_file. now rewrite H.
Qed.

Lemma small_file_one_chunk_witness :
  should_chunk (analyse default_config (change "src/app.py" five_lines "modified"))
  = false
  /\ summaries (process_file 0 default_config
       (analyse default_config (change "src/app.py" five_lines "modified")))
     = Some [(1, 1, 4, 1)].
Proof.
  split; [reflexivity|].
  rewrite (proj1 (proj2 (small_file_one_chunk default_config
             (change "src/app.py" five_lines "modified") 0)) eq_refl).
  reflexivity.
Defined.

(** ** [output_generator.py]: the report of skipped files *)

(** X11.  The rows of [skipped_files.md] built from the result of
    [filter_files] are, in input order, the input files that no skip
    pattern matches and that are note-only or deleted, with the reason
    [noted but not reviewed] for the former and [skipped] for the other
    deleted files.  The files that a skip pattern excludes, and the
    reasons of [_get_skip_reason], are not in the report. *)
Theorem skipped_rows_reported cfg self file_changes :
  skipped_rows (fst (filter_files cfg self file_changes))
  = map (fun fc =>
           (path_of fc,
            if should_note_only (path_of fc) then "noted but not reviewed"
            else "skipped"))
      (filter reported file_changes).
Proof.
  rewrite filter_files_spec. cbn [fst]. unfold classifications, skipped_rows.
  induction file_changes as [|fc rest IH]; [reflexivity|].
  cbn [filter]. unfold reported at 1.
  destruct (should_skip_file (path_of fc)); cbn [negb andb]; [exact IH|].
  cbn [map flat_map]. rewrite IH.
  cbn [analyse should_review note_only skip_reason file_change].
  destruct (should_note_only (path_of fc)) eqn:E; cbn [negb andb orb app map];
    rewrite ?E; [reflexivity|].
  destruct (String.eqb (status fc) "deleted"); cbn [negb app map]; rewrite ?E;
    reflexivity.
Qed.

(** X12.  When every input file is skipped by a pattern or is to be
    reviewed, the text of [skipped_files.md] says that no files were
    skipped, however many files the skip patterns excluded. *)
Theorem skipped_files_md_empty cfg self file_changes :
  (forall fc, In fc file_changes -> reported fc = false) ->
  skipped_files_md (fst (filter_files cfg self file_changes))
  = ("# Skipped Files" ++ NL ++ NL
     ++ "The following files were excluded from AI review:" ++ NL ++ NL
     ++ "No files were skipped." ++ NL)%string.
Proof.
  intros H.
  assert (Hrows : skipped_rows (fst (filter_files cfg self file_changes)) = []).
  { rewrite filter_files_spec. cbn [fst]. unfold classifications, skipped_rows.
    induction file_changes as [|fc rest IH]; [reflexivity|].
    assert (Hfc : reported fc = false) by (apply H; now left).
    unfold reported in Hfc. cbn [filter].
    destruct (should_skip_file (path_of fc)); cbn [negb andb] in *;
      [apply IH; intros; apply H; now right|].
    cbn [map flat_map]. rewrite IH by (intros; apply H; now right).
    cbn [analyse should_review note_only file_change].
    apply orb_false_iff in Hfc as [-> ->]. reflexivity. }
  unfold skipped_files_md. rewrite Hrows. reflexivity.
Qed.

Lemma skipped_files_md_empty_witness :
  (forall fc, In fc [change "yarn.lock" "" "modified";
                     change "src/app.py" "" "modified"] ->
     reported fc = false)
  /\ skipped_count
       (snd (filter_files default_config FileFilter_init
               [change "yarn.lock" "" "modified";
                change "src/app.py" "" "modified"])) = 1
  /\ Py.contains "No files were skipped."
       (skipped_files_md
          (fst (filter_files default_config FileFilter_init
                  [change "yarn.lock" "" "modified";
                   change "src/app.py" "" "modified"]))) = true.
Proof.
  assert (H : forall fc, In fc [change "yarn.lock" "" "modified";
                                change "src/app.py" "" "modified"] ->
                         reported fc = false).
  { intros fc [<-|[<-|[]]]; reflexivity. }
  split; [exact H|]. split; [reflexivity|].
  rewrite (skipped_files_md_empty default_config FileFilter_init _ H).
  reflexivity.
Defined.

(** ** [output_generator.py]: the lists of the review prompt *)

Lemma classified_priority cfg fc :
  priority (analyse cfg fc) = "critical"
  \/ priority (analyse cfg fc) = "normal"
  \/ priority (analyse cfg fc) = "low".
Proof.
  cbn [analyse priority]. unfold get_file_priority.
  destruct (is_critical_path _); [tauto|]. destruct (_ || _); tauto.
Qed.

(** X13.  Every file to review among the records of [filter_files] is
    in exactly one of the three lists of the review prompt, critical,
    normal or low: the three lists together have as many files as there
    are to review. *)
Theorem priority_lists_partition cfg self file_changes :
  let filtered_files := fst (filter_files cfg self file_changes) in
  llen (review_files filtered_files)
  = llen (critical_files filtered_files) + llen (normal_files filtered_files)
    + llen (low_files filtered_files)
  /\ forall f, In f (review_files filtered_files) ->
       In f (critical_files filtered_files)
       \/ In f (normal_files filtered_files)
       \/ In f (low_files filtered_files).
Proof.
  cbv zeta. rewrite filter_files_spec. cbn [fst].
  unfold critical_files, normal_files, low_files.
  assert (Hall : Forall (fun f => priority f = "critical"
                                  \/ priority f = "normal"
                                  \/ priority f = "low")
                   (review_files (classifications cfg file_changes))).
  { apply Forall_forall. intros f Hin. apply filter_In in Hin as [Hin _].
    apply in_map_iff in Hin as (fc & <- & _). apply classified_priority. }
  split.
  - unfold llen. induction Hall as [|f l Hf _ IH]; [reflexivity|].
    cbn [filter List.length].
    destruct Hf as [-> | [-> | ->]]; cbn [String.eqb Ascii.eqb Bool.eqb];
      cbn [List.length]; lia.
  - intros f Hin. rewrite Forall_forall in Hall.
    rewrite !filter_In, !String.eqb_eq. specialize (Hall f Hin). tauto.
Qed.

(** ** [output_generator.py]: the names of the diff files *)

Lemma append_cancel_l (a b c : string) :
  (a ++ b)%string = (a ++ c)%string -> b = c.
Proof. induction a as [|x a IH]; cbn; [tauto|]. intros [= H]. auto. Qed.

Lemma append_cancel_r (a b c : string) :
  (a ++ c)%string = (b ++ c)%string -> a = b.
Proof.
  intros H. apply (f_equal Py.rev_string) in H. rewrite !rev_string_app in H.
  apply append_cancel_l in H. apply (f_equal Py.rev_string) in H.
  now rewrite !rev_string_involutive in H.
Qed.

Lemma len_app a b : Py.len (a ++ b) = Py.len a + Py.len b.
Proof.
  unfold Py.len. induction a as [|x a IH]; cbn [String.append String.length];
    lia.
Qed.

(** Each replaced character makes the text one character longer. *)
Lemma replace_len c s :
  Py.len (str_replace c "__" s) = Py.len s + Py.count c s.
Proof.
  induction s as [|x s IH]; [reflexivity|].
  cbn [str_replace Py.count]. destruct (Ascii.eqb x c).
  - rewrite len_app. unfold Py.len in *. cbn [String.length]. lia.
  - unfold Py.len in *. cbn [String.length]. lia.
Qed.

Lemma replace_absent c new s :
  Py.count c s = 0 -> str_replace c new s = s.
Proof.
  induction s as [|x s IH]; intros H; [reflexivity|].
  cbn [str_replace Py.count] in *. pose proof (count_nonneg c s).
  destruct (Ascii.eqb x c); [lia|]. rewrite IH; [reflexivity|lia].
Qed.

Lemma replace_removes c new s :
  Py.count c new = 0 -> Py.count c (str_replace c new s) = 0.
Proof.
  intros Hnew. induction s as [|x s IH]; [reflexivity|].
  cbn [str_replace]. destruct (Ascii.eqb x c) eqn:E.
  - rewrite count_app. lia.
  - cbn [Py.count]. rewrite E. lia.
Qed.

Lemma replace_keeps_count c d new s :
  Ascii.eqb c d = false -> Py.count d new = 0 ->
  Py.count d (str_replace c new s) = Py.count d s.
Proof.
  intros Hcd Hnew. induction s as [|x s IH]; [reflexivity|].
  cbn [str_replace Py.count]. destruct (Ascii.eqb_spec x c) as [->|Hne].
  - rewrite count_app, Hcd. lia.
  - cbn [Py.count]. lia.
Qed.

(** The digits and the sign of a number are no path separators. *)
Lemma str_of_int_no_separator n :
  Py.count slash (str_of_int n) = 0 /\ Py.count backslash (str_of_int n) = 0.
Proof.
  unfold str_of_int.
  assert (H : forall d, Py.count slash (NilEmpty.string_of_uint d) = 0
                        /\ Py.count backslash (NilEmpty.string_of_uint d) = 0).
  { induction d as [|d [IH1 IH2]|d [IH1 IH2]|d [IH1 IH2]|d [IH1 IH2]
                    |d [IH1 IH2]|d [IH1 IH2]|d [IH1 IH2]|d [IH1 IH2]
                    |d [IH1 IH2]|d [IH1 IH2]];
      cbn [NilEmpty.string_of_uint Py.count]; [split; reflexivity|..];
      rewrite IH1, IH2; split; reflexivity. }
  destruct (Z.to_int n) as [d|d]; cbn [NilEmpty.string_of_int Py.count];
    [apply H|]. destruct (H d) as [-> ->]. split; reflexivity.
Qed.

Lemma str_of_int_inj a b : str_of_int a = str_of_int b -> a = b.
Proof.
  unfold str_of_int. intros H. apply to_int_inj.
  apply (f_equal NilEmpty.int_of_string) in H. rewrite !NilEmpty.isi in H.
  now injection H.
Qed.

(** X14.  The name under which the review prompt lists the file of a
    chunk is the name of the file that [_generate_diff_files] writes in
    [diffs/] exactly when the path of the chunk contains no backslash:
    only the latter replaces backslashes. *)
Theorem prompt_names_written_file chunk :
  prompt_chunk_file chunk = ("diffs/" ++ diff_filename chunk)%string
  <-> Py.count backslash (filepath chunk) = 0.
Proof.
  unfold prompt_chunk_file, diff_filename.
  set (p := str_replace slash "__" (filepath chunk)).
  assert (Hp : Py.count backslash p = Py.count backslash (filepath chunk))
    by (apply replace_keeps_count; reflexivity).
  rewrite <- Hp. split.
  - intros H. apply append_cancel_l in H.
    assert (E : p = str_replace backslash "__" p).
    { destruct (total_chunks chunk >? 1); now apply append_cancel_r in H. }
    apply (f_equal Py.len) in E. rewrite replace_len in E. lia.
  - intros H. now rewrite (replace_absent backslash "__" p H).
Qed.

Lemma prompt_names_written_file_witness :
  Py.count backslash "src/app.py" = 0
  /\ prompt_chunk_file
       {| filepath := "src/app.py"; chunk_number := 2; content := "";
          start_line := 301; end_line := 600; total_chunks := 3 |}
     = "diffs/src__app.py_chunk_2.diff".
Proof.
  split; [reflexivity|].
  rewrite (proj2 (prompt_names_written_file
    {| filepath := "src/app.py"; chunk_number := 2; content := "";
       start_line := 301; end_line := 600; total_chunks := 3 |}) eq_refl).
  reflexivity.
Defined.

(** X15.  The name of the file written for a chunk contains neither a
    slash nor a backslash: whatever the path of the chunk, the file is
    written in the directory [diffs] itself. *)
Theorem diff_filename_flat chunk :
  Py.count slash (diff_filename chunk) = 0
  /\ Py.count backslash (diff_filename chunk) = 0.
Proof.
  unfold diff_filename.
  set (p := str_replace backslash "__" (str_replace slash "__" (filepath chunk))).
  assert (Hs : Py.count slash p = 0).
  { unfold p. rewrite replace_keeps_count by reflexivity.
    now apply replace_removes. }
  assert (Hb : Py.count backslash p = 0) by now apply replace_removes.
  destruct (str_of_int_no_separator (chunk_number chunk)) as [Hn1 Hn2].
  destruct (total_chunks chunk >? 1); rewrite !count_app, ?Hs, ?Hb, ?Hn1, ?Hn2;
    split; reflexivity.
Qed.

Lemma diff_filename_number p a b :
  (p ++ "_chunk_" ++ str_of_int a ++ ".diff")%string
  = (p ++ "_chunk_" ++ str_of_int b ++ ".diff")%string -> a = b.
Proof.
  intros H. do 2 apply append_cancel_l in H. apply append_cancel_r in H.
  now apply str_of_int_inj.
Qed.

(** X16.  The chunks that [_chunk_diff] returns for one file are written
    to files with different names: no chunk of a file overwrites
    another chunk of the same file. *)
Theorem chunk_files_distinct cfg path d fuel :
  1 <= CHUNK_SIZE_LINES cfg ->
  llen (Py.split Py.nl d) <= Z.of_nat fuel ->
  exists chunks,
    _chunk_diff fuel cfg path d = Returns chunks
    /\ NoDup (map diff_filename chunks).
Proof.
  intros Hsize Hfuel.
  destruct (chunk_diff_returns cfg path d fuel Hsize Hfuel)
    as (chunks & Hrun & _ & Hch & Htot).
  destruct (chunk_diff_chunks cfg path d fuel Hsize Hfuel)
    as (chunks' & Hrun' & _ & Hall).
  rewrite Hrun in Hrun'. injection Hrun' as <-.
  exists chunks. split; [assumption|].
  rewrite Forall_forall in Htot, Hall.
  apply NoDup_nth_error. intros i j Hi Hij.
  rewrite length_map in Hi. rewrite !nth_error_map in Hij.
  destruct (nth_error chunks i) as [ci|] eqn:Ei;
    [|apply nth_error_None in Ei; lia].
  destruct (nth_error chunks j) as [cj|] eqn:Ej; [|discriminate].
  cbn [option_map] in Hij. injection Hij as Hij.
  pose proof (nth_error_In _ _ Ei) as Hini.
  pose proof (nth_error_In _ _ Ej) as Hinj.
  destruct (chained_nth _ _ _ _ _ _ Hch Ei) as (Hni & _).
  destruct (chained_nth _ _ _ _ _ _ Hch Ej) as (Hnj & _).
  unfold diff_filename in Hij.
  rewrite (Htot ci Hini), (Htot cj Hinj) in Hij.
  destruct (Hall ci Hini) as (Hpi & _). destruct (Hall cj Hinj) as (Hpj & _).
  rewrite Hpi, Hpj in Hij.
  destruct (Z.gtb_spec (llen chunks) 1) as [Hmany|Hone].
  - apply diff_filename_number in Hij. lia.
  - assert (Hj : (j < List.length chunks)%nat)
      by (apply nth_error_Some; congruence).
    unfold llen in Hone. lia.
Qed.

Lemma chunk_files_distinct_witness :
  1 <= CHUNK_SIZE_LINES chunks_of_two
  /\ llen (Py.split Py.nl five_lines) <= Z.of_nat 5
  /\ exists chunks,
       _chunk_diff 5 chunks_of_two "src/f.py" five_lines = Returns chunks
       /\ NoDup (map diff_filename chunks).
Proof.
  assert (H1 : 1 <= CHUNK_SIZE_LINES chunks_of_two) by (cbn; lia).
  assert (H2 : llen (Py.split Py.nl five_lines) <= Z.of_nat 5)
    by (vm_compute; discriminate).
  split; [exact H1|]. split; [exact H2|].
  exact (chunk_files_distinct chunks_of_two "src/f.py" five_lines 5 H1 H2).
Defined.

(** ** [run_pipeline.py]: [_format_path] *)

Lemma str_drop_len k : forall s,
  (k <= String.length s)%nat ->
  exists front, s = (front ++ str_drop k s)%string
                /\ String.length front = k.
Proof.
  induction k as [|k IH]; intros s Hk.
  - now exists "".
  - destruct s as [|c s]; [cbn in Hk; lia|].
    destruct (IH s) as (front & Hs & Hlen); [cbn in Hk; lia|].
    exists (String c front). cbn [str_drop String.append String.length].
    split; [now f_equal|now f_equal].
Qed.

Lemma string_length_app a b :
  String.length (a ++ b) = (String.length a + String.length b)%nat.
Proof. induction a as [|x a IH]; cbn; [reflexivity|now rewrite IH]. Qed.

(** X17.  [_format_path] returns a path of at most [max_len]
    characters unchanged.  A longer path, when [max_len] is at least 4,
    becomes three dots and the last [max_len - 3] characters of the
    path: exactly [max_len] characters.  With [max_len] 3 the whole
    path is kept after the dots, so the result is longer than the
    path. *)
Theorem format_path_cases path max_len :
  (Py.len path <= max_len -> _format_path path max_len = path)
  /\ (4 <= max_len < Py.len path ->
      exists tail,
        _format_path path max_len = ("..." ++ tail)%string
        /\ Py.endswith path tail = true
        /\ Py.len tail = max_len - 3
        /\ Py.len (_format_path path max_len) = max_len)
  /\ (max_len = 3 -> 3 < Py.len path ->
      _format_path path max_len = ("..." ++ path)%string).
Proof.
  unfold _format_path. split; [|split].
  - intros H. now destruct (Z.leb_spec (Py.len path) max_len); [|lia].
  - intros H. destruct (Z.leb_spec (Py.len path) max_len); [lia|].
    unfold str_from, Py.clamp. destruct (Z.ltb_spec (- (max_len - 3)) 0); [|lia].
    rewrite Z.max_l by lia.
    set (k := Z.to_nat (- (max_len - 3) + Py.len path)).
    destruct (str_drop_len k path) as (front & Hs & Hlen);
      [unfold Py.len in *; lia|].
    exists (str_drop k path).
    assert (Htail : Py.len (str_drop k path) = max_len - 3).
    { apply (f_equal String.length) in Hs. rewrite string_length_app in Hs.
      unfold Py.len in *. lia. }
    split; [reflexivity|]. split; [|split; [exact Htail|]].
    + apply endswith_spec. now exists front.
    + rewrite len_app, Htail. change (Py.len "...") with 3. lia.
  - intros -> H. destruct (Z.leb_spec (Py.len path) 3); [lia|].
    unfold str_from, Py.clamp. cbn [Z.sub Z.opp Z.ltb Z.compare Z.add Z.pos_sub].
    rewrite Z.min_l by (unfold Py.len; lia). reflexivity.
Qed.

Lemma format_path_cases_witness :
  4 <= 10 < Py.len "src/components/Button.tsx"
  /\ _format_path "src/components/Button.tsx" 10 = "...ton.tsx".
Proof.
  split; [vm_compute; split; [discriminate|reflexivity]|].
  destruct (proj1 (proj2 (format_path_cases "src/components/Button.tsx" 10)))
    as (tail & H & _).
  - vm_compute. split; [discriminate|reflexivity].
  - reflexivity.
Defined.

(** ** [run_pipeline.py]: [get_repo_name_from_project_id] *)

Lemma split_last c : forall s,
  exists front last,
    Py.split c s = front ++ [last]
    /\ Py.count c last = 0
    /\ (front = [] /\ s = last
        \/ front <> [] /\ exists pre, s = (pre ++ String c last)%string).
Proof.
  induction s as [|a s (front & last & Hs & Hlast & Hshape)].
  - exists [], "". repeat split. now left.
  - cbn [Py.split]. destruct (Ascii.eqb_spec a c) as [->|Hne].
    + exists ("" :: front), last. rewrite Hs. repeat split; [assumption|].
      right. split; [discriminate|].
      destruct Hshape as [[_ ->]|[_ [pre ->]]]; [now exists ""|].
      now exists (String c pre).
    + rewrite Hs. destruct front as [|w front].
      * exists [], (String a last). cbn [app Py.count].
        destruct (Ascii.eqb_spec a c); [congruence|].
        repeat split; [lia|]. left.
        destruct Hshape as [[_ ->]|[H _]]; [tauto|congruence].
      * exists (String a w :: front), last. repeat split; [assumption|].
        right. split; [discriminate|].
        destruct Hshape as [[H _]|[_ [pre ->]]]; [discriminate|].
        now exists (String a pre).
Qed.

Lemma index_last {A} (front : list A) (last : A) :
  Py.index (front ++ [last]) (-1) = Some last.
Proof.
  unfold Py.index. rewrite length_app. cbn [List.length].
  destruct (Z.ltb_spec (-1) 0); [|lia].
  destruct (Z.ltb_spec (-1 + Z.of_nat (List.length front + 1)) 0); [lia|].
  replace (Z.to_nat (-1 + Z.of_nat (List.length front + 1)))
    with (List.length front + 0)%nat by lia.
  now rewrite nth_error_app2, Nat.add_0_r, Nat.sub_diag by lia.
Qed.

Lemma lstrip_char_head c s :
  Py.startswith (lstrip_char c s) (String c "") = false.
Proof.
  induction s as [|a s IH]; [reflexivity|]. cbn [lstrip_char].
  destruct (Ascii.eqb a c) eqn:E; [assumption|].
  cbn [Py.startswith]. now rewrite Ascii.eqb_sym, E.
Qed.

Lemma rstrip_char_tail c s :
  Py.endswith (rstrip_char c s) (String c "") = false.
Proof.
  unfold Py.endswith, rstrip_char. rewrite rev_string_involutive.
  apply lstrip_char_head.
Qed.

(** X18.  [get_repo_name_from_project_id] never raises.  The name it
    returns contains no slash and is what follows the last slash of the
    project id once the surrounding whitespace and the trailing slashes
    are removed (all of it when no slash is left); the name is empty
    only when nothing is left of the id. *)
Theorem repo_name_is_last_segment project_id :
  let stripped := rstrip_char slash (Py.strip project_id) in
  exists name,
    get_repo_name_from_project_id project_id = Some name
    /\ Py.count slash name = 0
    /\ (stripped = name
        \/ exists pre, stripped = (pre ++ String slash name)%string)
    /\ (name = "" -> stripped = "").
Proof.
  intros stripped. unfold get_repo_name_from_project_id. fold stripped.
  destruct (split_last slash stripped) as (front & name & Hs & Hname & Hshape).
  exists name. rewrite Hs, index_last. split; [reflexivity|].
  split; [assumption|]. split.
  - destruct Hshape as [[_ H]|[_ H]]; [now left|now right].
  - intros ->. destruct Hshape as [[_ H]|[_ [pre H]]]; [assumption|].
    pose proof (rstrip_char_tail slash (Py.strip project_id)) as Ht.
    fold stripped in Ht. rewrite H in Ht.
    assert (Py.endswith (pre ++ String slash "") (String slash "") = true)
      by (apply endswith_spec; now exists pre).
    congruence.
Qed.

(** ** [gitlab_fetcher.py]: additions and deletions *)

Section CountAfterNewline.

(** The text looked for is a newline followed by [mark], which has no
    newline itself. *)
Variable mark : string.
Hypothesis mark_one_line : Py.count Py.nl mark = 0.

Lemma count_sub_skip k : forall front s,
  String.length front = k -> Py.count Py.nl front = 0 ->
  count_sub_from (String Py.nl mark) k (front ++ s)
  = count_sub_from (String Py.nl mark) 0 (front ++ s).
Proof.
  induction k as [|k IH]; intros front s Hlen Hnl; [reflexivity|].
  destruct front as [|c front]; [discriminate|].
  cbn [String.append count_sub_from]. cbn [Py.count] in Hnl.
  pose proof (count_nonneg Py.nl front).
  destruct (Ascii.eqb_spec c Py.nl) as [->|Hc]; [lia|].
  assert (E : Ascii.eqb Py.nl c = false) by (apply Ascii.eqb_neq; congruence).
  cbn [Py.startswith]. rewrite E. cbn [andb].
  cbn [String.length] in Hlen. apply IH; lia.
Qed.

Lemma count_sub_starts : forall s,
  count_sub_from (String Py.nl mark) 0 s = starts_of (String Py.nl mark) s.
Proof.
  induction s as [|c s IH]; [reflexivity|].
  cbn [count_sub_from starts_of].
  destruct (Py.startswith (String c s) (String Py.nl mark)) eqn:E; [|now rewrite IH].
  rewrite <- IH. f_equal.
  apply startswith_spec in E as [r Hr].
  cbn [String.append] in Hr. injection Hr as _ ->.
  replace (String.length (String Py.nl mark) - 1)%nat with (String.length mark)
    by (cbn [String.length]; lia).
  now apply count_sub_skip.
Qed.

Lemma startswith_first_line : forall p t,
  Py.count Py.nl p = 0 ->
  Py.startswith (hd "" (Py.split Py.nl t)) p = Py.startswith t p.
Proof.
  induction p as [|a p IH]; intros t Hp; [now rewrite !startswith_empty|].
  cbn [Py.count] in Hp. pose proof (count_nonneg Py.nl p).
  destruct (Ascii.eqb a Py.nl) eqn:Ea; [lia|].
  destruct t as [|c t]; [reflexivity|]. cbn [Py.split].
  destruct (Ascii.eqb_spec c Py.nl) as [->|Hc].
  - cbn [hd Py.startswith]. now rewrite Ea.
  - pose proof (split_nonempty Py.nl t). specialize (IH t).
    destruct (Py.split Py.nl t) as [|w ws]; [congruence|].
    cbn [hd Py.startswith] in *. rewrite IH by lia. reflexivity.
Qed.

Lemma starts_of_lines : forall s,
  starts_of (String Py.nl mark) s = later_lines (fun l => Py.startswith l mark) s.
Proof.
  unfold later_lines, llen. induction s as [|c s IH]; [reflexivity|].
  cbn [starts_of Py.split Py.startswith].
  pose proof (split_nonempty Py.nl s) as Hne.
  destruct (Ascii.eqb_spec c Py.nl) as [->|Hc].
  - rewrite Ascii.eqb_refl. cbn [andb tl]. rewrite IH.
    rewrite <- (startswith_first_line mark s mark_one_line).
    destruct (Py.split Py.nl s) as [|w ws]; [congruence|].
    cbn [hd tl filter]. destruct (Py.startswith w mark); cbn [List.length]; lia.
  - assert (E : Ascii.eqb Py.nl c = false)
      by (apply Ascii.eqb_neq; congruence).
    rewrite E. cbn [andb]. rewrite IH.
    destruct (Py.split Py.nl s) as [|w ws]; [congruence|]. reflexivity.
Qed.

Lemma count_sub_lines s :
  count_sub (NL ++ mark) s = later_lines (fun l => Py.startswith l mark) s.
Proof.
  unfold count_sub, NL. cbn [String.append Py.truthy].
  now rewrite count_sub_starts, starts_of_lines.
Qed.

End CountAfterNewline.

Lemma later_lines_split (test other : string -> bool) s :
  (forall l, other l = true -> test l = true) ->
  later_lines test s - later_lines other s
  = later_lines (fun l => test l && negb (other l)) s
  /\ 0 <= later_lines (fun l => test l && negb (other l)) s.
Proof.
  intros Himp. unfold later_lines, llen.
  induction (tl (Py.split Py.nl s)) as [|l ls IH]; [cbn; lia|].
  cbn [filter]. specialize (Himp l).
  destruct (test l), (other l); cbn [andb negb List.length];
    try (specialize (Himp eq_refl); discriminate); lia.
Qed.

(** X19.  The additions that the fetcher counts for a diff are the
    lines after the first one that start with [+] but not with [+++],
    and the deletions are those that start with [-] but not with [---]:
    the first line of the diff is never counted, and neither count is
    negative. *)
Theorem additions_and_deletions diff_text :
  additions_of diff_text
  = later_lines (fun l => Py.startswith l "+" && negb (Py.startswith l "+++"))
      diff_text
  /\ deletions_of diff_text
     = later_lines (fun l => Py.startswith l "-" && negb (Py.startswith l "---"))
         diff_text
  /\ 0 <= additions_of diff_text
  /\ 0 <= deletions_of diff_text.
Proof.
  unfold additions_of, deletions_of.
  rewrite !count_sub_lines by reflexivity.
  assert (Hplus : forall l, Py.startswith l "+++" = true
                            -> Py.startswith l "+" = true).
  { intros l H. apply startswith_spec in H as [r ->]. reflexivity. }
  assert (Hminus : forall l, Py.startswith l "---" = true
                             -> Py.startswith l "-" = true).
  { intros l H. apply startswith_spec in H as [r ->]. reflexivity. }
  destruct (later_lines_split _ _ diff_text Hplus) as [-> Ha].
  destruct (later_lines_split _ _ diff_text Hminus) as [-> Hd].
  repeat split; assumption.
Qed.

(** ** [_find_breakpoint] on its own *)

Lemma find_breakpoint_loop_spec lines end_ n : forall i0,
  0 <= i0 + 1 - Z.of_nat n -> i0 < llen lines ->
  exists b, find_breakpoint_loop lines i0 n end_ = Some b
    /\ (b = end_
        /\ (forall i line, i0 - Z.of_nat n < i <= i0 ->
              Py.index lines i = Some line -> good_breakpoint line = false)
        \/ i0 + 1 - Z.of_nat n < b <= i0 + 1
           /\ (exists line, Py.index lines (b - 1) = Some line
                            /\ good_breakpoint line = true)
           /\ (forall i line, b <= i <= i0 ->
                 Py.index lines i = Some line -> good_breakpoint line = false)).
Proof.
  induction n as [|n IH]; intros i0 Hlo Hhi.
  - exists end_. split; [reflexivity|]. left. split; [reflexivity|]. lia.
  - cbn [find_breakpoint_loop].
    destruct (index_in_range lines i0) as [line Hline]; [lia|]. rewrite Hline.
    destruct (good_breakpoint line) eqn:Hgood.
    + exists (i0 + 1). split; [reflexivity|]. right. split; [lia|]. split.
      * exists line. now replace (i0 + 1 - 1) with i0 by lia.
      * intros i l Hi. lia.
    + destruct (IH (i0 - 1)) as (b & Hb & Hcases); [lia|lia|].
      exists b. split; [assumption|].
      destruct Hcases as [[-> Hnone]|(Hr & Hfound & Hnone)].
      * left. split; [reflexivity|]. intros i l Hi Hl.
        destruct (Z.eq_dec i i0) as [->|Hne]; [congruence|].
        apply (Hnone i); [lia|assumption].
      * right. split; [lia|]. split; [assumption|]. intros i l Hi Hl.
        destruct (Z.eq_dec i i0) as [->|Hne]; [congruence|].
        apply (Hnone i); [lia|assumption].
Qed.

(** X20.  Within the list, [_find_breakpoint] raises nothing and
    returns the position after the last good line of the window
    [start, end): a position beyond [start] and at most [end]; it
    returns [end] when no line of the window is good (and when the
    window is empty).  When [end] is beyond the end of the list and the
    window is not empty, it raises [IndexError]. *)
Theorem find_breakpoint_last_good lines start end_ :
  0 <= start ->
  (end_ <= llen lines ->
   exists b, _find_breakpoint lines start end_ = Some b
     /\ (b = end_
         /\ (forall i line, start <= i < end_ ->
               Py.index lines i = Some line -> good_breakpoint line = false)
         \/ start < b <= end_
            /\ (exists line, Py.index lines (b - 1) = Some line
                             /\ good_breakpoint line = true)
            /\ (forall i line, b <= i < end_ ->
                  Py.index lines i = Some line ->
                  good_breakpoint line = false)))
  /\ (llen lines < end_ -> start < end_ ->
      _find_breakpoint lines start end_ = None).
Proof.
  intros Hstart. unfold _find_breakpoint. split.
  - intros Hend. destruct (Z.le_gt_cases end_ start) as [Hempty|Hwin].
    + replace (Z.to_nat (end_ - start)) with O by lia.
      exists end_. split; [reflexivity|]. left. split; [reflexivity|]. lia.
    + destruct (find_breakpoint_loop_spec lines end_ (Z.to_nat (end_ - start))
                  (end_ - 1)) as (b & Hb & Hcases); [lia|lia|].
      exists b. split; [assumption|].
      destruct Hcases as [[-> Hnone]|(Hr & Hfound & Hnone)].
      * left. split; [reflexivity|]. intros i l Hi. apply Hnone. lia.
      * right. split; [lia|]. split; [assumption|].
        intros i l Hi. apply Hnone. lia.
  - intros Hend Hwin.
    destruct (Z.to_nat (end_ - start)) as [|n] eqn:En; [lia|].
    cbn [find_breakpoint_loop]. unfold Py.index.
    destruct (Z.ltb_spec (end_ - 1) 0); [unfold llen in Hend; lia|].
    destruct (nth_error lines (Z.to_nat (end_ - 1))) eqn:E; [|reflexivity].
    assert (nth_error lines (Z.to_nat (end_ - 1)) <> None) by congruence.
    apply nth_error_Some in H0. unfold llen in Hend. lia.
Qed.

Lemma find_breakpoint_last_good_witness :
  0 <= 0
  /\ _find_breakpoint ["a"; ""; "b"; "c"] 0 4 = Some 2
  /\ _find_breakpoint ["a"; ""; "b"; "c"] 0 5 = None.
Proof.
  split; [lia|].
  destruct (find_breakpoint_last_good ["a"; ""; "b"; "c"] 0 4 (Z.le_refl 0))
    as [Hin _].
  destruct (find_breakpoint_last_good ["a"; ""; "b"; "c"] 0 5 (Z.le_refl 0))
    as [_ Hout].
  split; [reflexivity|]. apply Hout; vm_compute; reflexivity.
Defined.

(** ** Indentation *)

Lemma lstrip_blank_app ws s : blank ws -> Py.lstrip (ws ++ s) = Py.lstrip s.
Proof.
  unfold blank. induction ws as [|c ws IH]; intros H; [reflexivity|].
  cbn [String.append Py.lstrip] in *.
  destruct (Py.isspace c); [now apply IH|discriminate].
Qed.

Lemma lstrip_app_not_blank s t :
  Py.lstrip s <> "" -> Py.lstrip (s ++ t) = (Py.lstrip s ++ t)%string.
Proof.
  induction s as [|c s IH]; intros H; [now cbn in H|].
  cbn [String.append Py.lstrip] in *.
  destruct (Py.isspace c); [now apply IH|reflexivity].
Qed.

Lemma blank_rev ws : blank ws -> blank (Py.rev_string ws).
Proof.
  unfold blank. induction ws as [|c ws IH]; intros H; [reflexivity|].
  cbn [Py.lstrip Py.rev_string] in *.
  destruct (Py.isspace c) eqn:E; [|discriminate].
  rewrite lstrip_blank_app by (apply IH, H). cbn. now rewrite E.
Qed.

Lemma strip_surrounded before line after :
  blank before -> blank after ->
  Py.strip (before ++ line ++ after) = Py.strip line.
Proof.
  intros Hb Ha. unfold Py.strip. rewrite lstrip_blank_app by assumption.
  destruct (string_dec (Py.lstrip line) "") as [E|E].
  - assert (Hall : Py.lstrip (line ++ after) = "").
    { clear Hb. induction line as [|c line IH]; [exact Ha|].
      cbn [String.append Py.lstrip] in *.
      destruct (Py.isspace c); [now apply IH|discriminate]. }
    now rewrite Hall, E.
  - rewrite lstrip_app_not_blank by assumption.
    rewrite rev_string_app, lstrip_blank_app by now apply blank_rev.
    reflexivity.
Qed.

(** X21.  Whether a line is a good breakpoint does not depend on the
    whitespace before and after it, and a line of whitespace only is a
    good breakpoint. *)
Theorem good_breakpoint_indentation before line after :
  blank before -> blank after ->
  good_breakpoint (before ++ line ++ after) = good_breakpoint line
  /\ good_breakpoint before = true.
Proof.
  intros Hb Ha. unfold good_breakpoint. split.
  - now rewrite strip_surrounded.
  - unfold Py.strip. rewrite Hb. reflexivity.
Qed.

Lemma good_breakpoint_indentation_witness :
  blank "    " /\ blank " "
  /\ good_breakpoint ("    " ++ "def run(self):" ++ " ") = true.
Proof.
  assert (H1 : blank "    ") by reflexivity.
  assert (H2 : blank " ") by reflexivity.
  split; [exact H1|]. split; [exact H2|].
  rewrite (proj1 (good_breakpoint_indentation "    " "def run(self):" " " H1 H2)).
  reflexivity.
Defined.

(** ** [filter_files] in batches *)

(** X22.  [filter_files] keeps the order of its input: the records are
    those of the files that no skip pattern matches, in input order,
    and the log grows by the entries of the skipped and note-only
    files, in input order.  So filtering a list in two batches on one
    instance gives the same records and the same log as filtering it at
    once. *)
Theorem filter_files_batches cfg self first second :
  let '(filtered1, self1) := filter_files cfg self first in
  let '(filtered2, self2) := filter_files cfg self1 second in
  filter_files cfg self (first ++ second) = (filtered1 ++ filtered2, self2)
  /\ map file_change filtered1
     = filter (fun fc => negb (should_skip_file (path_of fc))) first
  /\ get_skipped_files self1
     = get_skipped_files self ++ flat_map log_entry first.
Proof.
  rewrite !filter_files_spec. cbn [skipped_files]. split; [|split].
  - now rewrite classifications_app, log_entries_app, app_assoc.
  - unfold classifications. rewrite map_map. cbn [analyse file_change].
    apply map_id.
  - reflexivity.
Qed.

(** ** The source branch, written and read back *)

Lemma search_fail c t :
  match_branch_here (String c t) = None ->
  search_branch (String c t) = search_branch t.
Proof. intros H. cbn [search_branch]. now rewrite H. Qed.

Lemma search_found s g :
  match_branch_here s = Some g -> search_branch s = Some g.
Proof. intros H. destruct s; cbn [search_branch]; now rewrite H. Qed.

Lemma search_no_star v s :
  Py.count star v = 0 -> search_branch (v ++ s) = search_branch s.
Proof.
  induction v as [|c v IH]; intros H; [reflexivity|].
  cbn [Py.count] in H. pose proof (count_nonneg star v).
  destruct (Ascii.eqb_spec c star) as [->|Hc]; [lia|].
  cbn [String.append]. rewrite search_fail; [apply IH; lia|].
  unfold match_branch_here. cbn [eat char_eq].
  assert (E : Ascii.eqb "*" c = false)
    by (apply Ascii.eqb_neq; unfold star in Hc; congruence).
  now rewrite E.
Qed.

Lemma take_until_app c g r :
  Py.count c g = 0 -> take_until c (g ++ String c r) = Some (g, r).
Proof.
  induction g as [|a g IH]; intros H.
  - cbn. now rewrite Ascii.eqb_refl.
  - cbn [Py.count] in H. pose proof (count_nonneg c g).
    cbn [String.append take_until].
    destruct (Ascii.eqb a c); [lia|]. rewrite IH by lia. reflexivity.
Qed.

(** X23.  When the id, the title and the author of the merge request
    contain no asterisk and the source branch is not empty and contains
    no backtick, reading the branch in the text that
    [_generate_mr_info] writes gives the source branch back, without
    the whitespace around it. *)
Theorem source_branch_round_trip mr_data :
  Py.count star (iid mr_data) = 0 ->
  Py.count star (title mr_data) = 0 ->
  Py.count star (author mr_data) = 0 ->
  source_branch mr_data <> "" ->
  Py.count backtick (source_branch mr_data) = 0 ->
  branch_of_mr_info (mr_info_text mr_data)
  = Some (Py.strip (source_branch mr_data)).
Proof.
  intros Hiid Htitle Hauthor Hne Hbranch.
  assert (Hmatch : forall rest,
    match_branch_here
      ("**Source Branch**: `" ++ source_branch mr_data ++ String backtick rest)
    = Some (source_branch mr_data)).
  { intros rest. unfold match_branch_here.
    cbn [String.append eat char_eq Ascii.eqb Bool.eqb Py.lstrip].
    change (Py.isspace " ") with true. change (Py.isspace "`") with false.
    cbv iota. change (Ascii.eqb "`" backtick) with true. cbv iota.
    rewrite take_until_app by assumption.
    destruct (source_branch mr_data); [congruence|reflexivity]. }
  assert (Hsearch : forall rest,
    search_branch
      ("# Merge Request Information" ++ NL ++ NL ++ "## Basic Info" ++ NL
       ++ "- **IID**: " ++ iid mr_data ++ NL
       ++ "- **Title**: " ++ title mr_data ++ NL
       ++ "- **Author**: " ++ author mr_data ++ NL
       ++ "- **Source Branch**: `" ++ source_branch mr_data
       ++ String backtick rest)
    = Some (source_branch mr_data)).
  { intros rest. unfold NL. cbn [String.append].
    repeat rewrite search_fail by reflexivity.
    rewrite search_no_star by assumption.
    repeat rewrite search_fail by reflexivity.
    rewrite search_no_star by assumption.
    repeat rewrite search_fail by reflexivity.
    rewrite search_no_star by assumption.
    repeat rewrite search_fail by reflexivity.
    apply search_found, (Hmatch rest). }
  unfold branch_of_mr_info, mr_info_text.
  destruct (Py.truthy (web_url mr_data)), (Py.truthy (description mr_data));
    rewrite ?append_assoc;
    change ("`" ++ ?r)%string with (String backtick r);
    now rewrite Hsearch.
Qed.

Lemma source_branch_round_trip_witness :
  branch_of_mr_info
    (mr_info_text
       {| iid := "42"; title := "Add login"; author := "Ada";
          source_branch := "feature/login"; target_branch := "main";
          description := "Adds the login form."; web_url := "";
          file_changes := [] |})
  = Some "feature/login".
Proof.
  refine (source_branch_round_trip
    {| iid := "42"; title := "Add login"; author := "Ada";
       source_branch := "feature/login"; target_branch := "main";
       description := "Adds the login form."; web_url := "";
       file_changes := [] |} _ _ _ _ _);
    (reflexivity || discriminate).
Defined.

(** ** Termination of the chunking loop *)

(** C4.  The loop of [_chunk_diff] terminates exactly when the chunk
    size is positive.  With [CHUNK_SIZE_LINES >= 1], on every iteration
    the end of the chunk is beyond the cursor and within the lines: it
    is the tentative end [min(cursor + size, total)], or a breakpoint
    beyond the cursor that the search has found.  The run then returns
    within one iteration per line, and its chunks record the cursor:
    each chunk was built by the iteration at cursor [start_line - 1],
    which moved the cursor to [end_line], further on; the first cursor
    is 0, every next iteration starts where the one before ended, and
    the last one ends at the number of lines.  With
    [CHUNK_SIZE_LINES <= 0] the loop never returns. *)
Theorem chunk_loop_terminates cfg path d :
  let lines := Py.split Py.nl d in
  (1 <= CHUNK_SIZE_LINES cfg ->
     (forall cur, 0 <= cur < llen lines ->
        let tentative := Z.min (cur + CHUNK_SIZE_LINES cfg) (llen lines) in
        exists e, chunk_end_at cfg lines cur = Some e
          /\ cur < e <= llen lines
          /\ (e = tentative
              \/ _find_breakpoint lines (Z.max (tentative - 50) cur) tentative
                 = Some e))
     /\ (forall fuel, llen lines <= Z.of_nat fuel ->
           exists chunks,
             _chunk_diff fuel cfg path d = Returns chunks
             /\ chunks <> []
             /\ chained 1 1 (llen lines) chunks
             /\ (forall k chunk, nth_error chunks k = Some chunk ->
                   let cursor := start_line chunk - 1 in
                   chunk_end_at cfg lines cursor = Some (end_line chunk)
                   /\ 0 <= cursor < end_line chunk
                   /\ end_line chunk <= llen lines
                   /\ (k = O -> cursor = 0)
                   /\ (forall next, nth_error chunks (S k) = Some next ->
                         start_line next - 1 = end_line chunk)
                   /\ (nth_error chunks (S k) = None ->
                         end_line chunk = llen lines))))
  /\ (CHUNK_SIZE_LINES cfg <= 0 ->
        forall fuel, _chunk_diff fuel cfg path d = Runs).
Proof.
  intros lines. split.
  - intros Hsize. split.
    + intros cur Hcur tentative.
      destruct (chunk_end_at_cases cfg lines cur) as (e & He & Hcases); [lia|].
      exists e. split; [assumption|]. fold tentative in Hcases.
      split; [subst tentative; lia|].
      destruct Hcases as [->|(_ & Hb & _)]; tauto.
    + intros fuel Hfuel. unfold _chunk_diff. fold lines.
      pose proof (count_nonneg Py.nl d) as Hc.
      pose proof (split_length Py.nl d) as Hn. fold lines in Hn.
      destruct (chunk_loop_returns cfg path lines Hsize fuel 0 1 [])
        as (new & Hrun & Hch & _); [lia|lia|].
      rewrite Hrun. cbn [app] in *.
      apply chunk_loop_chunks in Hrun as (new' & Hnew & Hall).
      cbn [app] in Hnew. subst new'.
      exists (map (set_total_chunks (llen new)) new).
      split; [reflexivity|]. split; [|split].
      * destruct new; [|discriminate]. cbn [chained] in Hch. lia.
      * now apply chained_set_total.
      * intros k chunk Hk. rewrite nth_error_map in Hk.
        destruct (nth_error new k) as [c0|] eqn:E; [|discriminate].
        injection Hk as <-. cbn [set_total_chunks start_line end_line].
        destruct (chained_nth _ _ _ _ _ _ Hch E)
          as (_ & I2 & I3 & I4 & I5 & I6).
        rewrite Forall_forall in Hall.
        destruct (Hall c0 (nth_error_In _ _ E)) as (_ & Hend & _).
        split; [exact Hend|]. split; [lia|]. split; [lia|].
        split; [intros Hk; specialize (I4 Hk); lia|]. split.
        -- intros next Hnext. rewrite nth_error_map in Hnext.
           destruct (nth_error new (S k)) as [n0|] eqn:En; [|discriminate].
           injection Hnext as <-. cbn [set_total_chunks start_line].
           specialize (I5 n0 eq_refl). lia.
        -- intros Hnone. rewrite nth_error_map in Hnone.
           destruct (nth_error new (S k)); [discriminate|]. now apply I6.
  - intros Hsize fuel. now apply chunk_diff_nonpositive_size_runs.
Qed.

Lemma chunk_loop_terminates_witness :
  1 <= CHUNK_SIZE_LINES default_config
  /\ llen (Py.split Py.nl diff_301_terminated) <= Z.of_nat 302
  /\ exists chunks,
       _chunk_diff 302 default_config "src/big.py" diff_301_terminated
       = Returns chunks
       /\ chained 1 1 302 chunks.
Proof.
  assert (H1 : 1 <= CHUNK_SIZE_LINES default_config) by (cbn; lia).
  assert (H2 : llen (Py.split Py.nl diff_301_terminated) <= Z.of_nat 302)
    by (vm_compute; discriminate).
  split; [exact H1|]. split; [exact H2|].
  destruct (proj2 (proj1 (chunk_loop_terminates default_config "src/big.py"
                            diff_301_terminated) H1) 302%nat H2)
    as (chunks & Hrun & _ & Hch & _).
  exists chunks. split; [exact Hrun|].
  replace 302 with (llen (Py.split Py.nl diff_301_terminated))
    by (vm_compute; reflexivity).
  exact Hch.
Defined.

(** With [CHUNK_SIZE_LINES=0] a diff of two lines is chunked, the end of
    the chunk at cursor 0 is 0, and the run never returns. *)
Lemma zero_chunk_size_never_returns :
  should_chunk two_line_file = true
  /\ chunk_end_at zero_chunk_size
       (Py.split Py.nl (diff (file_change two_line_file))) 0 = Some 0
  /\ ~ exists fuel chunks,
         process_file fuel zero_chunk_size two_line_file = Returns chunks.
Proof.
  assert (E : should_chunk two_line_file = true) by (vm_compute; reflexivity).
  split; [exact E|]. split; [vm_compute; reflexivity|].
  intros (fuel & chunks & H). unfold process_file in H. rewrite E in H.
  cbn [negb] in H.
  rewrite chunk_diff_nonpositive_size_runs in H by (cbn; lia).
  discriminate.
Qed.

(** ** Line counts, for every configuration *)

(** C9.  [line_count] is the number of newlines of the diff, and the
    chunker works on one line element more.  So when a classified file
    is chunked and the chunk size is positive, the last chunk of the run
    ends at line [line_count + 1] (with a chunk size that is not
    positive the run does not return); when the diff ends with a
    newline, that last line element is empty.  An empty diff escapes
    chunking exactly when neither threshold is negative: the single
    chunk returned then starts at line 1 and ends at line 0.  Under a
    negative size threshold the empty diff is chunked, and the single
    chunk of the run is line 1 to line 1. *)
Theorem line_count_one_less cfg fc fuel :
  let ff := analyse cfg fc in
  line_count ff = Py.count Py.nl (diff fc)
  /\ llen (Py.split Py.nl (diff fc)) = line_count ff + 1
  /\ (should_chunk ff = true ->
        (1 <= CHUNK_SIZE_LINES cfg -> line_count ff + 1 <= Z.of_nat fuel ->
           exists front last,
             process_file fuel cfg ff = Returns (front ++ [last])
             /\ end_line last = line_count ff + 1)
        /\ (CHUNK_SIZE_LINES cfg <= 0 -> process_file fuel cfg ff = Runs))
  /\ (forall s, diff fc = (s ++ NL)%string ->
        exists front, Py.split Py.nl (diff fc) = front ++ [""])
  /\ (diff fc = "" ->
        (should_chunk ff = false
         <-> 0 <= CHUNK_SIZE_LINES cfg /\ 0 <= MAX_FILE_SIZE_KB cfg)
        /\ (should_chunk ff = false ->
              exists chunk,
                process_file fuel cfg ff = Returns [chunk]
                /\ start_line chunk = 1 /\ end_line chunk = 0
                /\ end_line chunk < start_line chunk)
        /\ (should_chunk ff = true -> 1 <= CHUNK_SIZE_LINES cfg ->
              1 <= Z.of_nat fuel ->
              exists chunk,
                process_file fuel cfg ff = Returns [chunk]
                /\ start_line chunk = 1 /\ end_line chunk = 1)).
Proof.
  intros ff.
  assert (Hn : llen (Py.split Py.nl (diff fc)) = line_count ff + 1)
    by apply split_length.
  assert (Hrun : should_chunk ff = true -> 1 <= CHUNK_SIZE_LINES cfg ->
            line_count ff + 1 <= Z.of_nat fuel ->
            exists chunks,
              process_file fuel cfg ff = Returns chunks
              /\ chunks <> []
              /\ chained 1 1 (llen (Py.split Py.nl (diff fc))) chunks).
  { intros Hchunk Hsize Hfuel. unfold process_file. rewrite Hchunk.
    cbn [negb]. change (file_change ff) with fc.
    destruct (chunk_diff_returns cfg (path_of fc) (diff fc) fuel Hsize)
      as (chunks & -> & Hne & Hch & _); [lia|].
    now exists chunks. }
  split; [reflexivity|]. split; [exact Hn|]. split; [|split].
  - intros Hchunk. split.
    + intros Hsize Hfuel.
      destruct (Hrun Hchunk Hsize Hfuel) as (chunks & -> & Hne & Hch).
      destruct (chained_last _ _ _ _ Hch Hne) as (front & last & -> & He).
      exists front, last. split; [reflexivity|]. lia.
    + intros Hsize. unfold process_file. rewrite Hchunk. cbn [negb].
      now apply chunk_diff_nonpositive_size_runs.
  - intros s ->. exists (Py.split Py.nl s). apply split_terminated.
  - intros Hd. split; [|split].
    + unfold ff, analyse. cbn [should_chunk]. rewrite Hd.
      cbn [Py.count Py.len String.length Z.of_nat].
      rewrite orb_false_iff, Z.gtb_ltb, Z.ltb_ge.
      unfold Qgtb, Qle_bool, inject_Z. cbn [Qnum Qden].
      rewrite negb_false_iff, Z.leb_le. lia.
    + intros Hchunk. unfold process_file. rewrite Hchunk. cbn [negb].
      eexists. split; [reflexivity|].
      cbn [start_line end_line]. unfold ff, analyse. cbn [line_count].
      rewrite Hd. cbn. lia.
    + intros Hchunk Hsize Hfuel.
      assert (H0 : line_count ff = 0)
        by (unfold ff, analyse; cbn [line_count]; now rewrite Hd).
      destruct (Hrun Hchunk Hsize) as (chunks & -> & _ & Hch); [lia|].
      rewrite Hd in Hch. cbn in Hch.
      destruct chunks as [|chunk rest]; cbn [chained] in Hch; [lia|].
      destruct Hch as (H1 & _ & H3 & H4).
      destruct rest as [|next rest]; cbn [chained] in H4; [|lia].
      exists chunk. split; [reflexivity|]. lia.
Qed.

Lemma line_count_one_less_witness :
  should_chunk big_file = true
  /\ 1 <= CHUNK_SIZE_LINES default_config
  /\ line_count big_file + 1 <= Z.of_nat 302
  /\ exists front last,
       process_file 302 default_config big_file = Returns (front ++ [last])
       /\ end_line last = 302.
Proof.
  assert (H1 : should_chunk big_file = true) by (vm_compute; reflexivity).
  assert (H2 : 1 <= CHUNK_SIZE_LINES default_config) by (cbn; lia).
  assert (H3 : line_count big_file + 1 <= Z.of_nat 302)
    by (vm_compute; discriminate).
  repeat (split; [assumption|]).
  destruct (line_count_one_less default_config
              (change "src/big.py" diff_301_terminated "modified") 302)
    as (_ & _ & Hlast & _).
  destruct (proj1 (Hlast H1) H2 H3) as (front & last & Hrun & He).
  exists front, last. split; [exact Hrun|]. rewrite He.
  vm_compute. reflexivity.
Defined.

(** With [MAX_FILE_SIZE_KB=-1] an empty diff is chunked: its size, 0, is
    above the threshold.  The run returns one chunk, from line 1 to
    line 1, and no chunk from line 1 to line 0. *)
Lemma empty_diff_chunked :
  should_chunk empty_file = true
  /\ summaries (process_file 1 negative_max_size empty_file)
     = Some [(1, 1, 1, 1)]
  /\ ~ exists fuel chunk,
         process_file fuel negative_max_size empty_file = Returns [chunk]
         /\ start_line chunk = 1 /\ end_line chunk = 0.
Proof.
  split; [vm_compute; reflexivity|]. split; [vm_compute; reflexivity|].
  intros (fuel & chunk & H & _ & He).
  assert (H1 : exists c,
            process_file 1 negative_max_size empty_file = Returns [c]
            /\ end_line c = 1)
    by (eexists; split; [lazy; reflexivity|reflexivity]).
  destruct H1 as (c & H1 & Hc).
  assert (E : should_chunk empty_file = true) by (vm_compute; reflexivity).
  unfold process_file in H, H1. rewrite E in H, H1. cbn [negb] in H, H1.
  pose proof (chunk_diff_deterministic _ _ _ _ _ _ _ H H1) as Heq.
  injection Heq as ->. lia.
Qed.
